(** * Ledger loading and classification of the Excel itemizer

    A shallow embedding of [parse_sheet_date], [load_ledger],
    [compute_sections] and the keyword preparation of [main] from
    [excel_itemizer_docx.py] (the same four functions appear verbatim in
    [excel_itemizer_docx_tables.py]), followed by the properties of the
    ledger loader and of the classifier.

    Modelling conventions.
    - Text is [string] over 8-bit characters; [str.upper], [str.strip] and
      the regular expression class [\d] are the ASCII ones.
    - Amounts ([float64] in pandas) are exact rationals [Q]; [NaN] is [None].
      Sums are therefore exact, and [round(0)] is rounding of a rational to
      the nearest integer, ties to even.
    - A pandas frame is the list of its rows (or, for a sheet as read, the
      list of its labelled columns); [groupby(...).sum()] yields one row per
      distinct key, in increasing key order.
    - A Python exception is a [Raise] result.

    The development goes on with [money], [fmt_date] and the two renderers
    [build_docx] and [build_docx_tables], a document being the list of its
    headings, paragraphs and tables.  [sort_values] enters through what it
    promises (a sorted permutation), since pandas fixes no order among rows
    with equal keys. *)

From Stdlib Require Import List String Ascii Bool Arith ZArith QArith Qround Qabs Lia.
From Stdlib Require Import Permutation Sorted.
From Stdlib Require Import DecimalString DecimalN DecimalZ.
Import ListNotations.

Local Open Scope string_scope.
Local Open Scope Z_scope.

(** ** Exceptions *)

Inductive exn : Type :=
| ValueError
| TypeError.

Inductive result (A : Type) : Type :=
| Ok (a : A)
| Raise (e : exn).

Arguments Ok {A} a.
Arguments Raise {A} e.

Definition bind {A B : Type} (r : result A) (k : A -> result B) : result B :=
  match r with
  | Ok a => k a
  | Raise e => Raise e
  end.

Notation "x <- r ;; k" := (bind r (fun x => k))
  (at level 61, r at next level, right associativity).

(** ** Python strings *)

Module Py.

Definition is_lower (c : ascii) : bool :=
  (97 <=? nat_of_ascii c)%nat && (nat_of_ascii c <=? 122)%nat.

Definition upper_char (c : ascii) : ascii :=
  if is_lower c then ascii_of_nat (nat_of_ascii c - 32) else c.

(** [s.upper()] *)
Fixpoint upper (s : string) : string :=
  match s with
  | EmptyString => EmptyString
  | String c s' => String (upper_char c) (upper s')
  end.

(** The characters [str.strip()] removes: tab, line feed, vertical tab,
    form feed, carriage return, the four separators 28..31 and space. *)
Definition is_space (c : ascii) : bool :=
  let n := nat_of_ascii c in
  ((9 <=? n)%nat && (n <=? 13)%nat) || ((28 <=? n)%nat && (n <=? 32)%nat).

Fixpoint lstrip (s : string) : string :=
  match s with
  | EmptyString => EmptyString
  | String c s' => if is_space c then lstrip s' else s
  end.

Fixpoint rstrip (s : string) : string :=
  match s with
  | EmptyString => EmptyString
  | String c s' =>
      match rstrip s' with
      | EmptyString => if is_space c then EmptyString else String c EmptyString
      | r => String c r
      end
  end.

(** [s.strip()] *)
Definition strip (s : string) : string := lstrip (rstrip s).

(** [sub in s] *)
Fixpoint contains (sub s : string) : bool :=
  String.prefix sub s ||
  match s with
  | EmptyString => false
  | String _ s' => contains sub s'
  end.

(** [s.split(",")] *)
Fixpoint split_comma (s : string) : list string :=
  match s with
  | EmptyString => [EmptyString]
  | String c s' =>
      if Ascii.eqb c ","%char then EmptyString :: split_comma s'
      else match split_comma s' with
           | h :: t => String c h :: t
           | [] => [String c EmptyString]
           end
  end.

(** truthiness of a string *)
Definition truthy (s : string) : bool :=
  match s with
  | EmptyString => false
  | _ => true
  end.

Definition is_digit (c : ascii) : bool :=
  (48 <=? nat_of_ascii c)%nat && (nat_of_ascii c <=? 57)%nat.

Fixpoint all_digits (s : string) : bool :=
  match s with
  | EmptyString => true
  | String c s' => is_digit c && all_digits s'
  end.

Definition digit_value (c : ascii) : Z := Z.of_nat (nat_of_ascii c - 48).

Fixpoint int_acc (acc : Z) (s : string) : Z :=
  match s with
  | EmptyString => acc
  | String c s' => int_acc (10 * acc + digit_value c) s'
  end.

(** [int(s)] on a string of decimal digits *)
Definition int (s : string) : Z := int_acc 0 s.

End Py.

(** ** Calendar dates *)

Record date : Type := mk_date { year : Z; month : Z; day : Z }.

Definition date_compare (a b : date) : comparison :=
  match year a ?= year b with
  | Eq => match month a ?= month b with
          | Eq => day a ?= day b
          | c => c
          end
  | c => c
  end.

Definition date_eqb (a b : date) : bool :=
  (year a =? year b) && (month a =? month b) && (day a =? day b).

Definition is_leap (y : Z) : bool :=
  (y mod 4 =? 0) && (negb (y mod 100 =? 0) || (y mod 400 =? 0)).

Definition days_in_month (y m : Z) : Z :=
  if m =? 2 then (if is_leap y then 29 else 28)
  else if (m =? 4) || (m =? 6) || (m =? 9) || (m =? 11) then 30
  else 31.

(** The fields [pd.Timestamp(year=, month=, day=)] accepts: a date of the
    proleptic Gregorian calendar with a year in 1..9999.  (Releases of pandas
    that only store nanoseconds accept fewer years; every one of them rejects
    what is rejected here.) *)
Definition valid_ymd (y m d : Z) : bool :=
  (1 <=? y) && (y <=? 9999) && (1 <=? m) && (m <=? 12) &&
  (1 <=? d) && (d <=? days_in_month y m).

(** [pd.Timestamp(year=y, month=mth, day=d).date()] *)
Definition Timestamp_date (y mth d : Z) : result date :=
  if valid_ymd y mth d then Ok (mk_date y mth d) else Raise ValueError.

(** ** parse_sheet_date *)

(** The character class [[/-]]. *)
Definition is_sep (c : ascii) : bool :=
  Ascii.eqb c "/"%char || Ascii.eqb c "-"%char.

(** Longest prefix of digits, and what follows it. *)
Fixpoint span_digits (s : string) : string * string :=
  match s with
  | EmptyString => (EmptyString, EmptyString)
  | String c s' =>
      if Py.is_digit c
      then let (ds, r) := span_digits s' in (String c ds, r)
      else (EmptyString, s)
  end.

(** [re.match(r"^(\d{1,2})[/-](\d{1,2})[/-](\d{4})$", name)]: the three
    groups when the whole name matches.  A digit run is followed by a
    character that is no digit, so the greedy run is the only candidate. *)
Definition re_match_date (name : string) : option (string * string * string) :=
  let (g1, r1) := span_digits name in
  if (1 <=? String.length g1)%nat && (String.length g1 <=? 2)%nat then
    match r1 with
    | String c1 r2 =>
        if is_sep c1 then
          let (g2, r3) := span_digits r2 in
          if (1 <=? String.length g2)%nat && (String.length g2 <=? 2)%nat then
            match r3 with
            | String c2 r4 =>
                if is_sep c2 then
                  let (g3, r5) := span_digits r4 in
                  if (String.length g3 =? 4)%nat then
                    match r5 with
                    | EmptyString => Some (g1, g2, g3)
                    | _ => None
                    end
                  else None
                else None
            | EmptyString => None
            end
          else None
        else None
    | EmptyString => None
    end
  else None.

Definition parse_sheet_date (name : string) : result (option date) :=
  let name := Py.strip name in
  match re_match_date name with
  | Some (g1, g2, g3) =>
      let d := Py.int g1 in
      let mth := Py.int g2 in
      let y := Py.int g3 in
      dt <- Timestamp_date y mth d ;;
      Ok (Some dt)
  | None => Ok None
  end.

(** ** Sheets as read by [pd.read_excel] *)

(** A cell of a sheet, by what the loader observes of it: whether it is
    missing, its text under [astype(str)], and the number
    [pd.to_numeric(errors="coerce")] reads from it. *)
Inductive cell : Type :=
| NaN
| Text (s : string) (num : option Q)
| Number (q : Q) (repr : string).

Definition isna (c : cell) : bool :=
  match c with
  | NaN => true
  | _ => false
  end.

Definition astype_str (c : cell) : string :=
  match c with
  | NaN => "nan"
  | Text s _ => s
  | Number _ r => r
  end.

Definition to_numeric (c : cell) : option Q :=
  match c with
  | NaN => None
  | Text _ n => n
  | Number q _ => Some q
  end.

(** A column of a frame: [label] is [str(c)] of its header cell. *)
Record column : Type := mk_column { label : string; values : list cell }.

Definition DataFrame : Type := list column.

(** A sheet of the workbook; [read_excel] is [None] when reading it raises. *)
Record sheet : Type := mk_sheet { sheet_name : string; read_excel : option DataFrame }.

(** [df.columns = [str(c).strip().upper() for c in df.columns]] *)
Definition normalize_columns (df : DataFrame) : DataFrame :=
  map (fun c => mk_column (Py.upper (Py.strip (label c))) (values c)) df.

Definition columns (df : DataFrame) : list string := map label df.

Definition in_columns (c : string) (df : DataFrame) : bool :=
  existsb (String.eqb c) (columns df).

(** [df[c]] for a label of the frame: the series under that label.  A label
    carried by several columns selects a sub-frame, which neither
    [pd.to_numeric] nor the frame constructor takes as a column. *)
Definition getitem (e : exn) (df : DataFrame) (c : string) : result (list cell) :=
  match filter (fun col => String.eqb (label col) c) df with
  | [col] => Ok (values col)
  | _ => Raise e
  end.

(** ** Column detection *)

Record col_map : Type :=
  mk_col_map { CUENTA : option string; DEBE : option string; HABER : option string }.

Definition scan_step (cm : col_map) (c : string) : col_map :=
  if Py.contains "CUENTA" c then mk_col_map (Some c) (DEBE cm) (HABER cm)
  else if Py.contains "DEBE" c then mk_col_map (CUENTA cm) (Some c) (HABER cm)
  else if Py.contains "HABER" c then mk_col_map (CUENTA cm) (DEBE cm) (Some c)
  else cm.

(** The loop over [df.columns] filling [col_map]. *)
Definition scan_columns (cols : list string) : col_map :=
  fold_left scan_step cols (mk_col_map None None None).

(** [df.columns[:3].tolist()] padded with [None] to three entries. *)
Definition base_cols (cols : list string) : list (option string) :=
  let b := map Some (firstn 3 cols) in
  b ++ repeat None (3 - List.length b).

Definition detect_columns (cols : list string) : col_map :=
  let cm := scan_columns cols in
  match CUENTA cm, DEBE cm with
  | Some _, Some _ => cm
  | _, _ =>
      let b := base_cols cols in
      mk_col_map (nth 0 b None) (nth 1 b None)
                 (if (2 <? List.length b)%nat then nth 2 b None else None)
  end.

(** ** load_ledger *)

(** A row of the per-sheet frame [temp] once the account is stringified. *)
Record entry : Type :=
  mk_entry { e_Fecha : option date; e_Cuenta : string;
             e_Debe : option Q; e_Haber : option Q }.

(** A row of the unified ledger [all_df]. *)
Record line : Type :=
  mk_line { Fecha : date; Cuenta : string; Debe : option Q; Haber : option Q }.

(** A row of [temp] as constructed, the account still a raw cell. *)
Record raw_row : Type :=
  mk_raw { raw_Fecha : option date; raw_Cuenta : cell;
           raw_Debe : option Q; raw_Haber : option Q }.

(** [pd.DataFrame({"Fecha": f, "Cuenta": c, "Debe": d, "Haber": h})]: the
    series are aligned on the union of their row indices, a position a
    series lacks being missing. *)
Definition build_temp (f : option date) (c : list cell) (d h : list (option Q))
  : list raw_row :=
  let n := Nat.max (List.length c) (Nat.max (List.length d) (List.length h)) in
  map (fun i => mk_raw f (nth i c NaN) (nth i d None) (nth i h None)) (seq 0 n).

Definition all_absent (r : raw_row) : bool :=
  isna (raw_Cuenta r) &&
  match raw_Debe r with None => true | Some _ => false end &&
  match raw_Haber r with None => true | Some _ => false end.

Definition is_header_row (r : raw_row) : bool :=
  String.eqb (Py.upper (astype_str (raw_Cuenta r))) "CUENTA".

Definition stringify (r : raw_row) : entry :=
  mk_entry (raw_Fecha r) (Py.strip (astype_str (raw_Cuenta r)))
           (raw_Debe r) (raw_Haber r).

(** The body of the loop of [load_ledger] for a sheet that was read.  The
    values of the dictionary are computed in the order written, so the date
    comes first; a sub-frame under [Cuenta] is only refused by the frame
    constructor, after [pd.to_numeric] has run on the other two. *)
Definition load_sheet (s : string) (df0 : DataFrame) : result (list entry) :=
  let df := normalize_columns df0 in
  let cm := detect_columns (columns df) in
  let cuenta_col := CUENTA cm in
  let debe_col := DEBE cm in
  let haber_col := HABER cm in
  fecha <- parse_sheet_date s ;;
  debe <- match debe_col with
          | Some c => if in_columns c df
                      then v <- getitem TypeError df c ;; Ok (map to_numeric v)
                      else Ok []
          | None => Ok []
          end ;;
  haber <- match haber_col with
           | Some c => if Py.truthy c && in_columns c df
                       then v <- getitem TypeError df c ;; Ok (map to_numeric v)
                       else Ok []
           | None => Ok []
           end ;;
  cuenta <- match cuenta_col with
            | Some c => if in_columns c df then getitem ValueError df c else Ok []
            | None => Ok []
            end ;;
  let temp := build_temp fecha cuenta debe haber in
  let temp := filter (fun r => negb (all_absent r)) temp in
  let temp := filter (fun r => negb (is_header_row r)) temp in
  Ok (map stringify temp).

(** The loop over the sheets, collecting [records]. *)
Fixpoint load_records (sheets : list sheet) : result (list (list entry)) :=
  match sheets with
  | [] => Ok []
  | s :: rest =>
      match read_excel s with
      | None => load_records rest
      | Some df =>
          temp <- load_sheet (sheet_name s) df ;;
          records <- load_records rest ;;
          Ok (temp :: records)
      end
  end.

(** [all_df[~all_df["Fecha"].isna()]] with the dates made [date] values. *)
Definition drop_undated (rows : list entry) : list line :=
  flat_map (fun e => match e_Fecha e with
                     | Some d => [mk_line d (e_Cuenta e) (e_Debe e) (e_Haber e)]
                     | None => []
                     end) rows.

Definition load_ledger (workbook : list sheet) : result (list line) :=
  records <- load_records workbook ;;
  Ok (drop_undated (List.concat records)).

(** ** Series arithmetic *)

Definition Qltb (x y : Q) : bool :=
  match (x ?= y)%Q with
  | Lt => true
  | _ => false
  end.

(** [series > y], false on a missing value *)
Definition gt (x : option Q) (y : Q) : bool :=
  match x with
  | Some v => Qltb y v
  | None => false
  end.

(** [series >= y], false on a missing value *)
Definition ge (x : option Q) (y : Q) : bool :=
  match x with
  | Some v => Qle_bool y v
  | None => false
  end.

Definition notna (x : option Q) : bool :=
  match x with
  | Some _ => true
  | None => false
  end.

(** [fillna(0)]; also what a missing value adds to a sum *)
Definition fillna0 (x : option Q) : Q :=
  match x with
  | Some v => v
  | None => 0%Q
  end.

Definition sum_Q (l : list Q) : Q := fold_right Qplus 0%Q l.

(** [round(0)]: nearest integer, a tie going to the even neighbour *)
Definition round_half_even (q : Q) : Z :=
  let f := Qfloor q in
  match (q - inject_Z f ?= 1 # 2)%Q with
  | Lt => f
  | Gt => f + 1
  | Eq => if Z.even f then f else f + 1
  end.

Definition round0 (q : Q) : Q := inject_Z (round_half_even q).

(** ** groupby *)

Fixpoint insert_key (d : date) (ks : list date) : list date :=
  match ks with
  | [] => [d]
  | k :: ks' =>
      match date_compare d k with
      | Lt => d :: ks
      | Eq => ks
      | Gt => k :: insert_key d ks'
      end
  end.

(** The distinct keys of a grouping, in increasing order. *)
Definition group_keys (ds : list date) : list date := fold_right insert_key [] ds.

Section GroupBy.
Context {A : Type}.
Variable key : A -> date.
Variable val : A -> option Q.

Definition group (d : date) (rows : list A) : list A :=
  filter (fun r => date_eqb (key r) d) rows.

Definition group_total (d : date) (rows : list A) : Q :=
  sum_Q (map (fun r => fillna0 (val r)) (group d rows)).

(** [rows.groupby(key, as_index=False)[val].sum()] *)
Definition groupby_sum (rows : list A) : list (date * Q) :=
  map (fun d => (d, group_total d rows)) (group_keys (map key rows)).
End GroupBy.

Fixpoint lookup (d : date) (t : list (date * Q)) : option Q :=
  match t with
  | [] => None
  | (k, v) :: t' => if date_eqb k d then Some v else lookup d t'
  end.

(** ** compute_sections *)

Record retiro : Type :=
  mk_retiro { r_Fecha : date; Monto : Q; Concepto : string;
              Detalle_Total : Q; Efectivo : Q }.

Record transfer : Type := mk_transfer { t_line : line; Tipo : string }.

Inductive value_column : Type := Col_Debe | Col_Haber.

Definition column_of (c : value_column) (t : transfer) : option Q :=
  match c with
  | Col_Debe => Debe (t_line t)
  | Col_Haber => Haber (t_line t)
  end.

Record sections : Type :=
  mk_sections { retiros : list retiro; detalles : list line;
                posibles_trans : list transfer;
                trans_diario : list (date * Q); total_trans : Q }.

(** The test of the [if] that selects how transfers are detected. *)
Definition haber_mode (all_df : list line) : bool :=
  existsb (fun l => notna (Haber l)) all_df &&
  Qltb 0 (sum_Q (map (fun l => fillna0 (Haber l)) all_df)).

Definition is_petty (key : string) (l : line) : bool :=
  String.eqb (Py.upper (Cuenta l)) key.

Definition mask_kw (transfer_keywords : list string) (l : line) : bool :=
  existsb (fun k => Py.contains k (Py.upper (Cuenta l))) transfer_keywords.

(** [retiros.merge(det_totals, on="Fecha", how="left")], the missing totals
    filled with 0, and the column [Efectivo]. *)
Definition reconcile (det_totals : list (date * Q)) (r : date * Q) : retiro :=
  let dt := match lookup (fst r) det_totals with
            | Some t => t
            | None => 0%Q
            end in
  mk_retiro (fst r) (snd r) "COMPRAS" dt (round0 (snd r - dt)).

Definition compute_sections (all_df : list line) (petty_cash_name : string)
    (min_transfer_debe : Q) (transfer_keywords : list string) : sections :=
  let PETTY_CASH_KEY := Py.upper petty_cash_name in
  let retiros :=
    groupby_sum Fecha Debe
      (filter (fun l => is_petty PETTY_CASH_KEY l && gt (Debe l) 0) all_df) in
  let detalles :=
    filter (fun l => gt (Debe l) 0 && negb (is_petty PETTY_CASH_KEY l)) all_df in
  let det_totals := groupby_sum Fecha Debe detalles in
  let retiros := map (reconcile det_totals) retiros in
  let '(posibles_trans, valor_col) :=
    if haber_mode all_df then
      (map (fun l => mk_transfer l "HABER")
           (filter (fun l => gt (Haber l) 0) all_df), Col_Haber)
    else
      (map (fun l => mk_transfer l "DEBE(MAYOR)")
           (filter (fun l => ge (Debe l) min_transfer_debe
                             && mask_kw transfer_keywords l) all_df), Col_Debe) in
  let trans_diario :=
    groupby_sum (fun t => Fecha (t_line t)) (column_of valor_col) posibles_trans in
  let total_trans :=
    match trans_diario with
    | [] => 0%Q
    | _ => sum_Q (map snd trans_diario)
    end in
  mk_sections retiros detalles posibles_trans trans_diario total_trans.

(** ** The configuration as [main] passes it on *)

(** [[k.strip().upper() for k in arg.split(",") if k.strip()]] *)
Definition main_keywords (arg : string) : list string :=
  map (fun k => Py.upper (Py.strip k))
      (filter (fun k => Py.truthy (Py.strip k)) (Py.split_comma arg)).

(** [load_ledger] followed by [compute_sections], as in [main]. *)
Definition main_sections (workbook : list sheet) (petty_cash_name : string)
    (min_transfer_debe : Q) (transfer_keywords : string) : result sections :=
  all_df <- load_ledger workbook ;;
  Ok (compute_sections all_df petty_cash_name min_transfer_debe
                       (main_keywords transfer_keywords)).

(** ** Notions used to state the properties *)

(** [name] is [g1 c1 g2 c2 g3] with [g1] and [g2] one or two digits, [g3]
    four digits and [c1], [c2] each a slash or a hyphen: the sheet names of
    the pattern D{1,2}[/-]M{1,2}[/-]YYYY, with their three groups. *)
Definition matches_date_pattern (name g1 g2 g3 : string) : Prop :=
  exists c1 c2,
    name = g1 ++ String c1 (g2 ++ String c2 g3) /\
    Py.all_digits g1 = true /\ (1 <= String.length g1 <= 2)%nat /\
    is_sep c1 = true /\
    Py.all_digits g2 = true /\ (1 <= String.length g2 <= 2)%nat /\
    is_sep c2 = true /\
    Py.all_digits g3 = true /\ String.length g3 = 4%nat.

(** The keywords of the option [--transfer-keywords]: its comma-separated
    pieces, trimmed, the empty ones left out. *)
Definition configured_keywords (arg : string) : list string :=
  map Py.strip (filter (fun k => Py.truthy (Py.strip k)) (Py.split_comma arg)).


(** Column detection as the specification words it: each column goes to
    the first header containing its token, and the first three headers are
    taken by position when the account or the debit column is not found. *)
Definition spec_detect_columns (cols : list string) : col_map :=
  let first tok := find (Py.contains tok) cols in
  match first "CUENTA", first "DEBE" with
  | Some a, Some d => mk_col_map (Some a) (Some d) (first "HABER")
  | _, _ => mk_col_map (nth_error cols 0) (nth_error cols 1) (nth_error cols 2)
  end.

(** No character of the string is one [str.strip()] removes. *)
Fixpoint no_space (s : string) : bool :=
  match s with
  | EmptyString => true
  | String c s' => negb (Py.is_space c) && no_space s'
  end.

(** What follows a maximal run of digits: nothing, or a character that is
    not a digit. *)
Definition stops_digits (r : string) : Prop :=
  match r with
  | EmptyString => True
  | String c _ => Py.is_digit c = false
  end.

(** How the chain of tests in the loop of column detection classifies one
    header: as the account column, else as the debit column, else as the
    credit column. *)
Definition is_cuenta (c : string) : bool := Py.contains "CUENTA" c.

Definition is_debe (c : string) : bool :=
  negb (Py.contains "CUENTA" c) && Py.contains "DEBE" c.

Definition is_haber (c : string) : bool :=
  negb (Py.contains "CUENTA" c) && negb (Py.contains "DEBE" c)
  && Py.contains "HABER" c.

(** The last header of [cols] that satisfies [p]. *)
Definition last_match (p : string -> bool) (cols : list string) : option string :=
  find p (rev cols).

(** A string [str.strip()] leaves unchanged. *)
Definition trimmed (s : string) : Prop := Py.strip s = s.

(** The increasing order of dates. *)
Definition date_lt (a b : date) : Prop := date_compare a b = Lt.

Definition or_else (o d : option string) : option string :=
  match o with
  | Some c => Some c
  | None => d
  end.

(** ** Workbooks and ledgers of the scenarios *)

Module Scenario.

Definition aug5 : date := mk_date 2025 8 5.
Definition aug6 : date := mk_date 2025 8 6.

Definition caja : line := mk_line aug5 "CAJA MENOR" (Some 500000%Q) None.
Definition papeleria : line := mk_line aug5 "PAPELERIA" (Some 120000%Q) None.
Definition banco : line := mk_line aug5 "BANCO XYZ" (Some 350000%Q) None.
Definition abono : line := mk_line aug5 "VENTAS" None (Some 200000%Q).

(** Scenarios A, B and C of the specification. *)
Definition ledger_A : list line := [caja; papeleria].
Definition ledger_B : list line := [caja; papeleria; banco].
Definition ledger_C : list line := [caja; papeleria; banco; abono].



Definition frame_aug5 : DataFrame :=
  [mk_column "Cuenta" [Text "CAJA MENOR" None; Text "PAPELERIA" None];
   mk_column "Debe" [Number 500000%Q "500000"; Number 120000%Q "120000"];
   mk_column "Haber" [NaN; NaN]].

Definition frame_aug6 : DataFrame :=
  [mk_column "Cuenta" [Text "TAXI" None];
   mk_column "Debe" [Number 50000%Q "50000"];
   mk_column "Haber" [NaN]].

Definition sheet_aug5 : sheet := mk_sheet "05/08/2025" (Some frame_aug5).

(** A sheet named after a day that is not in the calendar. *)
Definition sheet_feb31 : sheet := mk_sheet "31-02-2025" (Some frame_aug6).

(** A sheet in which the header row occurs again among the data, its first
    cell followed by a blank. *)
Definition sheet_repeated_header : sheet :=
  mk_sheet "05/08/2025"
    (Some [mk_column "Cuenta " [Text "CAJA MENOR" None; Text "Cuenta " None];
           mk_column "Debe" [Number 500000%Q "500000"; Text "Debe" None];
           mk_column "Haber" [NaN; Text "Haber" None]]).

(** Headers with a second column whose name contains the account token. *)
Definition headers_subcuenta : list string :=
  ["CUENTA"; "DEBE"; "HABER"; "SUBCUENTA"].



End Scenario.

(** ** money and fmt_date *)

(** The character of a decimal digit. *)
Definition digit_char (n : Z) : ascii := ascii_of_nat (48 + Z.to_nat n).

(** [%d] and [%m] of [strftime]: two decimal digits, zero-padded. *)
Definition two_digits (n : Z) : string :=
  String (digit_char (n / 10)) (String (digit_char (n mod 10)) EmptyString).

(** [%Y] of [strftime] for a year of four digits (below 1000 the padding
    depends on the platform; it is zero-padded here). *)
Definition four_digits (n : Z) : string :=
  String (digit_char (n / 1000))
    (String (digit_char ((n / 100) mod 10))
       (String (digit_char ((n / 10) mod 10))
          (String (digit_char (n mod 10)) EmptyString))).

(** [pd.to_datetime(d).strftime("%d/%m/%Y")] *)
Definition fmt_date (d : date) : string :=
  two_digits (day d) ++ "/" ++ two_digits (month d) ++ "/" ++ four_digits (year d).

(** The digits of [f"{n:,}"]: a comma before every group of three digits,
    counted from the right. *)
Fixpoint commas (digits : string) : string :=
  match digits with
  | EmptyString => EmptyString
  | String c s' =>
      String c (if (0 <? String.length s')%nat && (String.length s' mod 3 =? 0)%nat
                then String ","%char (commas s')
                else commas s')
  end.

(** [f"{n:,}"] for an integer [n] *)
Definition format_thousands (n : Z) : string :=
  let ds := commas (NilZero.string_of_uint (N.to_uint (Z.abs_N n))) in
  if n <? 0 then String "-"%char ds else ds.

(** [s.replace(a, b)] for single characters *)
Fixpoint replace_char (a b : ascii) (s : string) : string :=
  match s with
  | EmptyString => EmptyString
  | String c s' => String (if Ascii.eqb c a then b else c) (replace_char a b s')
  end.

(** [money(x)] for an amount: [int(round(float(x), 0))] with separators;
    a missing amount makes [int] raise, and the handler returns [str(x)]. *)
Definition money (x : option Q) : string :=
  match x with
  | Some q => replace_char "," "." ("$" ++ format_thousands (round_half_even q))
  | None => "nan"
  end.

(** ** The report document *)

(** A document of python-docx, as far as the renderers fill it: headings,
    paragraphs (bold or not) and tables with their alignment, their style
    and the text of their cells, row by row. *)
Inductive table_alignment : Type := LEFT.

Record table : Type :=
  mk_table { alignment : option table_alignment; style : option string;
             cells : list (list string) }.

Inductive block : Type :=
| Heading (text : string) (level : nat)
| Paragraph (text : string) (bold : bool)
| Table (t : table).

Definition document : Type := list block.

(** What a renderer does: it raises [RuntimeError] when python-docx cannot
    be imported, and saves a document otherwise. *)
Inductive rendered : Type :=
| RuntimeError (msg : string)
| Saved (doc : list block).

(** [sort_values]: pandas sorts with an algorithm that promises the rows in
    increasing order of the key and nothing about rows with equal keys. *)
Class SortValues : Type := {
  sort_values : forall {A : Type}, (A -> A -> bool) -> list A -> list A;
  sort_values_perm :
    forall (A : Type) (le : A -> A -> bool) (l : list A),
      Permutation l (sort_values le l);
  sort_values_sorted :
    forall (A : Type) (le : A -> A -> bool) (l : list A),
      (forall x y, le x y = true \/ le y x = true) ->
      Sorted (fun x y => le x y = true) (sort_values le l)
}.

(** The order of [sort_values("Fecha")] and of [sort_values("Cuenta")]. *)
Definition by_fecha {A : Type} (key : A -> date) (x y : A) : bool :=
  match date_compare (key x) (key y) with
  | Gt => false
  | _ => true
  end.

Definition by_cuenta {A : Type} (key : A -> string) (x y : A) : bool :=
  String.leb (key x) (key y).

(** Sorting by insertion, one way to sort. *)
Fixpoint insert_sorted {A : Type} (le : A -> A -> bool) (x : A) (l : list A) : list A :=
  match l with
  | [] => [x]
  | y :: l' => if le x y then x :: l else y :: insert_sorted le x l'
  end.

Definition insertion_sort {A : Type} (le : A -> A -> bool) (l : list A) : list A :=
  fold_right (insert_sorted le) [] l.

(** [responsable or '(pendiente)'] *)
Definition or_pendiente (responsable : string) : string :=
  if Py.truthy responsable then responsable else "(pendiente)".

(** [retiros[retiros["Fecha"] == fecha]] *)
Definition fila_retiro (retiros : list retiro) (fecha : date) : list retiro :=
  filter (fun r => date_eqb (r_Fecha r) fecha) retiros.

(** The value shown for a transfer: the credit when it is present and
    above 0, the debit otherwise. *)
Definition valor (t : transfer) : option Q :=
  if notna (Haber (t_line t)) && gt (Haber (t_line t)) 0
  then Haber (t_line t) else Debe (t_line t).

Definition sum_debe (sub : list line) : Q :=
  sum_Q (map (fun l => fillna0 (Debe l)) sub).

Section Report.
Context {sorter : SortValues}.

(** The rows of the withdrawals table, common to both renderers. *)
Definition retiros_rows (retiros : list retiro) : list (list string) :=
  map (fun r => [fmt_date (r_Fecha r); money (Some (Monto r)); Concepto r])
      (sort_values (by_fecha r_Fecha) retiros).

(** The rows of the transfers table, with the remark of the renderer. *)
Definition trans_rows (remark : string) (trans_diario : list (date * Q))
  : list (list string) :=
  map (fun r => [fmt_date (fst r); money (Some (snd r)); remark])
      (sort_values (by_fecha (@fst date Q)) trans_diario).

(** The rows of the itemized table of a day. *)
Definition detalle_rows (sub : list line) : list (list string) :=
  map (fun row => [Cuenta row; money (Debe row)])
      (sort_values (by_cuenta Cuenta) sub).

(** The rows of the transfer table of a day. *)
Definition posibles_rows (sub : list transfer) : list (list string) :=
  map (fun row => [Cuenta (t_line row); money (valor row)])
      (sort_values (by_cuenta (fun t => Cuenta (t_line t))) sub).

(** *** build_docx *)

(** The body of the loop over [detalles.groupby("Fecha")]. *)
Definition detalle_dia (retiros : list retiro) (fecha : date) (sub : list line)
  : list block :=
  let tot := sum_debe sub in
  ([Heading (fmt_date fecha) 3;
   Table (mk_table (Some LEFT) None (["Concepto"; "Valor"] :: detalle_rows sub))]
  ++ match fila_retiro retiros fecha with
     | f :: _ =>
         let retiro_val := Monto f in
         let efectivo := Efectivo f in
         [Paragraph ("TOTAL: " ++ money (Some tot) ++ "    EFECTIVO: "
                     ++ money (Some efectivo)) true;
          Paragraph ("El día " ++ fmt_date fecha
                     ++ " se realiza un retiro para compras por un valor de "
                     ++ money (Some retiro_val) ++ " "
                     ++ "el cual en facturación tiene un valor de "
                     ++ money (Some tot)
                     ++ " y el mensajero entrega en efectivo "
                     ++ money (Some efectivo) ++ ".") false]
     | [] => []
     end
  ++ [Paragraph "" false])%list.

(** The body of the loop over [posibles_trans.groupby("Fecha")]. *)
Definition transferencia_dia (fecha : date) (sub : list transfer) : list block :=
  [Paragraph (fmt_date fecha) true;
   Table (mk_table None None (["Concepto"; "Valor"] :: posibles_rows sub));
   Paragraph ("TOTAL: " ++ money (Some (sum_debe (map t_line sub)))) false;
   Paragraph "" false].

Definition build_docx (docx_installed : bool) (now : date)
    (empresa mes responsable : string)
    (retiros : list retiro) (detalles : list line)
    (posibles_trans : list transfer) (trans_diario : list (date * Q))
    (total_trans : Q) : rendered :=
  if negb docx_installed
  then RuntimeError "python-docx is required. Install with: pip install python-docx"
  else Saved (
    [Heading ("Empresa: " ++ empresa) 1;
     Paragraph ("Mes: " ++ mes ++ "  •  Responsable: " ++ or_pendiente responsable
                ++ "  •  Fecha de elaboración: " ++ fmt_date now) false;
     Heading "DETALLE DE RETIROS DIARIOS PARA CAJA" 2]
    ++ match retiros with
       | _ :: _ =>
           [Table (mk_table (Some LEFT) None
                     (["Fecha"; "Monto retirado"; "Concepto / Observación"]
                      :: retiros_rows retiros));
            Paragraph ("TOTAL CAJAS: " ++ money (Some (sum_Q (map Monto retiros)))) true]
       | [] =>
           [Paragraph "No se detectaron retiros de 'CAJA MENOR'. Verifique el nombre exacto de la cuenta." false]
       end
    ++ [Heading "DETALLES DE CAJAS MENORES POR DÍA" 2]
    ++ match detalles with
       | _ :: _ =>
           flat_map (fun fecha => detalle_dia retiros fecha (group Fecha fecha detalles))
                    (group_keys (map Fecha detalles))
       | [] =>
           [Paragraph "No se detectaron egresos de caja (DEBE) distintos a 'CAJA MENOR'." false]
       end
    ++ [Heading "DETALLES DE TRANSFERENCIAS" 2]
    ++ match trans_diario with
       | _ :: _ =>
           [Table (mk_table None None
                     (["Fecha"; "Monto transferido"; "Concepto / Observación"]
                      :: trans_rows "PROVEEDORES / GASTOS (estimado)" trans_diario));
            Paragraph ("TOTAL: " ++ money (Some total_trans)) true;
            Heading "2.2 DETALLES DE TRANSFERENCIAS POR DÍA" 3]
           ++ flat_map (fun fecha =>
                          transferencia_dia fecha
                            (group (fun t => Fecha (t_line t)) fecha posibles_trans))
                       (group_keys (map (fun t => Fecha (t_line t)) posibles_trans))
       | [] =>
           [Paragraph "No se detectaron transferencias de manera inequívoca. Si su libro registra transferencias en otra hoja o columna, indíquelo y ajusto el criterio." false]
       end).

(** *** build_docx_tables *)

Definition grid (rows : list (list string)) : block :=
  Table (mk_table None (Some "Table Grid") rows).

(** The body of the loop over [detalles.groupby("Fecha")]. *)
Definition detalle_dia_tablas (retiros : list retiro) (fecha : date) (sub : list line)
  : list block :=
  [Paragraph (fmt_date fecha) true;
   grid ((["Concepto"; "Valor"] :: detalle_rows sub)
         ++ [["TOTAL"; money (Some (sum_debe sub))]]
         ++ match fila_retiro retiros fecha with
            | f :: _ => [["EFECTIVO"; money (Some (Efectivo f))]]
            | [] => []
            end)%list;
   Paragraph "" false].

(** The body of the loop over [posibles_trans.groupby("Fecha")]. *)
Definition transferencia_dia_tablas (fecha : date) (sub : list transfer) : list block :=
  [Paragraph (fmt_date fecha) true;
   grid ((["Concepto"; "Valor"] :: posibles_rows sub)
         ++ [["TOTAL";
              money (Some (if existsb (fun t => notna (Debe (t_line t))) sub
                           then sum_debe (map t_line sub)
                           else sum_Q (map (fun t => fillna0 (Haber (t_line t))) sub)))]])%list;
   Paragraph "" false].

Definition build_docx_tables (docx_installed : bool) (now : date)
    (empresa mes responsable : string)
    (retiros : list retiro) (detalles : list line)
    (posibles_trans : list transfer) (trans_diario : list (date * Q))
    (total_trans : Q) : rendered :=
  if negb docx_installed
  then RuntimeError "python-docx is required. Install with: pip install python-docx"
  else Saved (
    [Table (mk_table (Some LEFT) (Some "Table Grid")
              [["Empresa"; empresa]; ["Mes"; mes];
               ["Responsable"; or_pendiente responsable];
               ["Fecha de elaboración"; fmt_date now]]);
     Paragraph "" false;
     Paragraph "DETALLE DE RETIROS DIARIOS PARA CAJA" true]
    ++ match retiros with
       | _ :: _ =>
           [grid (["Fecha"; "Monto retirado"; "Concepto / Observación"]
                  :: retiros_rows retiros);
            grid [["TOTAL CAJAS"; money (Some (sum_Q (map Monto retiros)))]]]
       | [] => [Paragraph "No se detectaron retiros de 'CAJA MENOR'." false]
       end
    ++ [Paragraph "" false;
        Paragraph "DETALLES DE CAJAS MENORES POR DIA" true]
    ++ match detalles with
       | _ :: _ =>
           flat_map (fun fecha =>
                       detalle_dia_tablas retiros fecha (group Fecha fecha detalles))
                    (group_keys (map Fecha detalles))
       | [] =>
           [Paragraph "No se detectaron egresos de caja (DEBE) distintos a 'CAJA MENOR'." false]
       end
    ++ [Paragraph "" false;
        Paragraph "DETALLES DE TRASFERENCIAS" true]
    ++ match trans_diario with
       | _ :: _ =>
           [grid (["Fecha"; "Monto transferido"; "Concepto / Observación"]
                  :: trans_rows "PROVEEDORES, TRANSPORTE, VEHICULOS." trans_diario);
            grid [["TOTAL"; money (Some total_trans)]];
            Paragraph "2.2 DETALLES DE TRASFERENCIAS POR DIA" true]
           ++ flat_map (fun fecha =>
                          transferencia_dia_tablas fecha
                            (group (fun t => Fecha (t_line t)) fecha posibles_trans))
                       (group_keys (map (fun t => Fecha (t_line t)) posibles_trans))
       | [] => [Paragraph "No se detectaron transferencias claramente identificadas." false]
       end).

End Report.

(** ** Notions used to state further properties *)





(** The blocks [seg] stand in the document [doc], one after the other. *)
Definition occurs {A : Type} (seg doc : list A) : Prop :=
  exists pre post, doc = (pre ++ seg ++ post)%list.

(** The sheet could be read. *)
Definition readable (sh : sheet) : bool :=
  match read_excel sh with
  | Some _ => true
  | None => false
  end.


(** ** Further workbooks of the scenarios *)

Module Scenario2.

(** A sheet with an account and a debit column only. *)
Definition sheet_two_columns : sheet :=
  mk_sheet "05-08-2025"
    (Some [mk_column "Cuenta" [Text "CAJA MENOR" None; Text "BANCO XYZ" None];
           mk_column "Debe" [Number 500000%Q "500000"; Number 350000%Q "350000"]]).

(** The line of that day with the bank account. *)
Definition banco_sin_haber : line :=
  mk_line (mk_date 2025 8 5) "BANCO XYZ" (Some 350000%Q) None.


Definition headers_usual : list string := ["FECHA"; "CUENTA"; "DEBE"; "HABER"].

End Scenario2.

(** * Properties *)

(** ** Exact sums *)

Lemma Qplus_comm_eq (x y : Q) : (x + y)%Q = (y + x)%Q.
Proof.
  destruct x as [a b], y as [c d]. unfold Qplus; simpl.
  f_equal; [ring | apply Pos.mul_comm].
Qed.

Lemma Qplus_assoc_eq (x y z : Q) : (x + (y + z))%Q = ((x + y) + z)%Q.
Proof.
  destruct x as [a b], y as [c d], z as [e f]. unfold Qplus; simpl.
  f_equal; [rewrite !Pos2Z.inj_mul; ring | apply Pos.mul_assoc].
Qed.

Lemma Qplus_0_l_eq (x : Q) : (0 + x)%Q = x.
Proof.
  destruct x as [a b]. unfold Qplus; simpl. now rewrite Z.mul_1_r.
Qed.

Lemma Qplus_0_r_eq (x : Q) : (x + 0)%Q = x.
Proof. now rewrite Qplus_comm_eq, Qplus_0_l_eq. Qed.

Lemma sum_Q_app (l1 l2 : list Q) : sum_Q (l1 ++ l2) = (sum_Q l1 + sum_Q l2)%Q.
Proof.
  induction l1 as [|x l1 IH]; simpl.
  - now rewrite Qplus_0_l_eq.
  - now rewrite IH, Qplus_assoc_eq.
Qed.



Lemma Qltb_lt (x y : Q) : Qltb x y = true <-> (x < y)%Q.
Proof.
  unfold Qltb. rewrite Qlt_alt. destruct (x ?= y)%Q; split; congruence.
Qed.

Lemma gt_spec (x : option Q) (y : Q) :
  gt x y = true <-> exists v, x = Some v /\ (y < v)%Q.
Proof.
  destruct x as [v|]; simpl.
  - rewrite Qltb_lt. split.
    + intros H. now exists v.
    + intros [w [E H]]. now inversion E.
  - split; [discriminate | intros [w [E _]]; discriminate].
Qed.

Lemma ge_spec (x : option Q) (y : Q) :
  ge x y = true <-> exists v, x = Some v /\ (y <= v)%Q.
Proof.
  destruct x as [v|]; simpl.
  - rewrite Qle_bool_iff. split.
    + intros H. now exists v.
    + intros [w [E H]]. now inversion E.
  - split; [discriminate | intros [w [E _]]; discriminate].
Qed.

(** [round_half_even] is within one half of its argument. *)
Lemma round_half_even_nearest (q : Q) :
  (Qabs (q - inject_Z (round_half_even q)) <= 1 # 2)%Q.
Proof.
  unfold round_half_even.
  pose proof (Qfloor_le q) as Hlo.
  pose proof (Qlt_floor q) as Hhi.
  assert (Hinj : (inject_Z (Qfloor q + 1) == inject_Z (Qfloor q) + 1)%Q)
    by (rewrite inject_Z_plus; reflexivity).
  set (f := Qfloor q) in *.
  apply Qabs_Qle_condition.
  destruct (q - inject_Z f ?= 1 # 2)%Q eqn:C.
  - apply Qeq_alt in C. destruct (Z.even f).
    + rewrite C. split; discriminate.
    + rewrite Hinj.
      setoid_replace (q - (inject_Z f + 1))%Q with ((q - inject_Z f) - 1)%Q by ring.
      rewrite C. split; discriminate.
  - apply Qlt_alt in C. split.
    + apply Qle_trans with 0%Q; [discriminate|].
      now apply -> Qle_minus_iff in Hlo.
    + now apply Qlt_le_weak.
  - apply Qgt_alt in C. rewrite Hinj.
    setoid_replace (q - (inject_Z f + 1))%Q with ((q - inject_Z f) - 1)%Q by ring.
    split.
    + apply Qlt_le_weak.
      apply Qplus_lt_l with (z := 1%Q).
      setoid_replace (q - inject_Z f - 1 + 1)%Q with (q - inject_Z f)%Q by ring.
      exact C.
    + apply Qle_trans with 0%Q; [|discriminate].
      rewrite Hinj in Hhi.
      apply Qlt_le_weak.
      apply Qplus_lt_l with (z := (inject_Z f + 1)%Q).
      setoid_replace (q - inject_Z f - 1 + (inject_Z f + 1))%Q with q by ring.
      now rewrite Qplus_0_l.
Qed.

(** ** Lists *)


Lemma filter_none {A : Type} (p : A -> bool) (l : list A) :
  (forall x, In x l -> p x = false) -> filter p l = [].
Proof.
  induction l as [|x l IH]; simpl; intros H; [reflexivity|].
  rewrite (H x (or_introl eq_refl)). apply IH. intros y Hy. apply H. now right.
Qed.


Lemma find_snoc {A : Type} (p : A -> bool) (l : list A) (x : A) :
  find p (l ++ [x]) =
  match find p l with
  | Some y => Some y
  | None => if p x then Some x else None
  end.
Proof.
  induction l as [|y l IH]; simpl; [reflexivity|].
  now destruct (p y).
Qed.



(** ** The order of dates *)

Ltac date_order :=
  repeat match goal with
         | d : date |- _ => destruct d
         end;
  unfold date_lt, date_compare, date_eqb in *; simpl in *;
  repeat match goal with
         | |- context [?x ?= ?y] => destruct (Z.compare_spec x y)
         | H : context [?x ?= ?y] |- _ => destruct (Z.compare_spec x y)
         | |- context [?x =? ?y] => destruct (Z.eqb_spec x y)
         | H : context [?x =? ?y] |- _ => destruct (Z.eqb_spec x y)
         end;
  simpl in *; try discriminate; try lia;
  try (f_equal; lia); try congruence.

Lemma date_eqb_eq (a b : date) : date_eqb a b = true <-> a = b.
Proof.
  split.
  - intros H. date_order.
  - intros ->. destruct b as [y m d]. unfold date_eqb; simpl.
    now rewrite !Z.eqb_refl.
Qed.

Lemma date_eqb_refl (a : date) : date_eqb a a = true.
Proof. now apply date_eqb_eq. Qed.

Lemma date_eqb_sym (a b : date) : date_eqb a b = date_eqb b a.
Proof.
  destruct (date_eqb a b) eqn:E.
  - apply date_eqb_eq in E. subst. symmetry. apply date_eqb_refl.
  - destruct (date_eqb b a) eqn:E'; [|reflexivity].
    apply date_eqb_eq in E'. subst. now rewrite date_eqb_refl in E.
Qed.

Lemma date_compare_eq (a b : date) : date_compare a b = Eq -> a = b.
Proof. intros H. date_order. Qed.

Lemma date_compare_gt (a b : date) : date_compare a b = Gt -> date_lt b a.
Proof. intros H. date_order. Qed.

Lemma date_lt_trans (a b c : date) : date_lt a b -> date_lt b c -> date_lt a c.
Proof. intros H1 H2. date_order. Qed.

Lemma date_lt_irrefl (a : date) : ~ date_lt a a.
Proof. intros H. date_order. Qed.

(** ** Grouping keys *)

Lemma insert_key_In (d x : date) (ks : list date) :
  In x (insert_key d ks) <-> x = d \/ In x ks.
Proof.
  induction ks as [|k ks IH]; simpl.
  - intuition.
  - destruct (date_compare d k) eqn:C; simpl.
    + apply date_compare_eq in C. subst. intuition.
    + intuition.
    + rewrite IH. intuition.
Qed.

Lemma group_keys_In (x : date) (ds : list date) :
  In x (group_keys ds) <-> In x ds.
Proof.
  induction ds as [|d ds IH]; simpl.
  - reflexivity.
  - rewrite insert_key_In, IH. intuition.
Qed.

Lemma insert_key_sorted (d : date) (ks : list date) :
  StronglySorted date_lt ks -> StronglySorted date_lt (insert_key d ks).
Proof.
  induction 1 as [|k ks Hs IH Hk]; simpl.
  - repeat constructor.
  - destruct (date_compare d k) eqn:C.
    + now constructor.
    + constructor; [now constructor|].
      constructor; [exact C|].
      rewrite Forall_forall in *. intros x Hx.
      apply date_lt_trans with k; auto.
    + constructor; [exact IH|].
      rewrite Forall_forall in *. intros x Hx.
      apply insert_key_In in Hx. destruct Hx as [->|Hx]; auto.
      now apply date_compare_gt.
Qed.

Lemma group_keys_sorted (ds : list date) : StronglySorted date_lt (group_keys ds).
Proof.
  induction ds as [|d ds IH]; simpl.
  - constructor.
  - now apply insert_key_sorted.
Qed.





(** ** groupby *)

Section GroupByFacts.
Context {A : Type}.
Variable key : A -> date.
Variable val : A -> option Q.

Lemma groupby_sum_keys (rows : list A) :
  map fst (groupby_sum key val rows) = group_keys (map key rows).
Proof.
  unfold groupby_sum. rewrite map_map. simpl. apply map_id.
Qed.

Lemma groupby_sum_In (rows : list A) (d : date) (v : Q) :
  In (d, v) (groupby_sum key val rows) <->
  (exists r, In r rows /\ key r = d) /\ v = group_total key val d rows.
Proof.
  unfold groupby_sum. rewrite in_map_iff. split.
  - intros [k [E Hk]]. inversion E; subst. split; [|reflexivity].
    apply group_keys_In, in_map_iff in Hk.
    destruct Hk as [r [Hr Hin]]. now exists r.
  - intros [[r [Hin Hr]] ->]. exists d. split; [reflexivity|].
    apply group_keys_In, in_map_iff. now exists r.
Qed.




End GroupByFacts.

(** ** The parts of [compute_sections] *)

Section Sections.
Variable all_df : list line.
Variable petty_cash_name : string.
Variable min_transfer_debe : Q.
Variable transfer_keywords : list string.

Let s := compute_sections all_df petty_cash_name min_transfer_debe transfer_keywords.
Let KEY := Py.upper petty_cash_name.

Lemma detalles_eq :
  detalles s = filter (fun l => gt (Debe l) 0 && negb (is_petty KEY l)) all_df.
Proof.
  unfold s, compute_sections. now destruct (haber_mode all_df).
Qed.

Lemma retiros_eq :
  retiros s =
  map (reconcile (groupby_sum Fecha Debe (detalles s)))
      (groupby_sum Fecha Debe
         (filter (fun l => is_petty KEY l && gt (Debe l) 0) all_df)).
Proof.
  unfold s, compute_sections. now destruct (haber_mode all_df).
Qed.

Lemma posibles_trans_eq :
  posibles_trans s =
  if haber_mode all_df
  then map (fun l => mk_transfer l "HABER")
           (filter (fun l => gt (Haber l) 0) all_df)
  else map (fun l => mk_transfer l "DEBE(MAYOR)")
           (filter (fun l => ge (Debe l) min_transfer_debe
                             && mask_kw transfer_keywords l) all_df).
Proof.
  unfold s, compute_sections. now destruct (haber_mode all_df).
Qed.

Lemma trans_diario_eq :
  trans_diario s =
  groupby_sum (fun t => Fecha (t_line t))
              (column_of (if haber_mode all_df then Col_Haber else Col_Debe))
              (posibles_trans s).
Proof.
  unfold s, compute_sections. now destruct (haber_mode all_df).
Qed.


End Sections.

Lemma haber_sum_all_missing (all_df : list line) :
  existsb (fun l => notna (Haber l)) all_df = false ->
  sum_Q (map (fun l => fillna0 (Haber l)) all_df) = 0%Q.
Proof.
  induction all_df as [|l ls IH]; simpl; [reflexivity|].
  intros H. apply orb_false_iff in H. destruct H as [H1 H2].
  rewrite (IH H2). destruct (Haber l); [discriminate|reflexivity].
Qed.

(** The test of the mode is the test that the credits sum to more than 0. *)
Lemma haber_mode_iff (all_df : list line) :
  haber_mode all_df = true <->
  (0 < sum_Q (map (fun l => fillna0 (Haber l)) all_df))%Q.
Proof.
  unfold haber_mode. rewrite andb_true_iff, Qltb_lt. split.
  - now intros [_ H].
  - intros H. split; [|exact H].
    destruct (existsb _ all_df) eqn:E; [reflexivity|].
    rewrite (haber_sum_all_missing _ E) in H. discriminate.
Qed.

(** ** Withdrawals and cash delivered *)

Lemma retiros_dates (all_df : list line) (petty : string) (m : Q) (kws : list string) :
  map r_Fecha (retiros (compute_sections all_df petty m kws)) =
  group_keys (map Fecha (filter (fun l => is_petty (Py.upper petty) l
                                          && gt (Debe l) 0) all_df)).
Proof.
  rewrite retiros_eq, map_map. simpl.
  rewrite <- (groupby_sum_keys Fecha Debe). reflexivity.
Qed.




(** ** Transfer detection *)

(** C1. Which lines are transfers is decided from the sum of the credits of
    the whole ledger: above 0, the candidates are exactly the lines with a
    credit above 0 and the daily totals add credits; equal to 0, the
    candidates are those of the keyword rule and the daily totals add debits.
    All candidates of a run carry the same tag. *)
Theorem transfer_mode_is_global
    (all_df : list line) (petty : string) (m : Q) (kws : list string) :
  let s := compute_sections all_df petty m kws in
  let total_credit := sum_Q (map (fun l => fillna0 (Haber l)) all_df) in
  ((0 < total_credit)%Q ->
     posibles_trans s = map (fun l => mk_transfer l "HABER")
                            (filter (fun l => gt (Haber l) 0) all_df) /\
     trans_diario s = groupby_sum (fun t => Fecha (t_line t))
                                  (fun t => Haber (t_line t)) (posibles_trans s)) /\
  ((total_credit == 0)%Q ->
     posibles_trans s = map (fun l => mk_transfer l "DEBE(MAYOR)")
                            (filter (fun l => ge (Debe l) m && mask_kw kws l) all_df) /\
     trans_diario s = groupby_sum (fun t => Fecha (t_line t))
                                  (fun t => Debe (t_line t)) (posibles_trans s)) /\
  (forall t t', In t (posibles_trans s) -> In t' (posibles_trans s) ->
                Tipo t = Tipo t').
Proof.
  intros s total_credit. subst s.
  split; [|split].
  - intros H. apply haber_mode_iff in H.
    rewrite trans_diario_eq, posibles_trans_eq, H. now split.
  - intros H.
    assert (Hm : haber_mode all_df = false).
    { destruct (haber_mode all_df) eqn:E; [|reflexivity].
      apply haber_mode_iff in E. fold total_credit in E.
      rewrite H in E. discriminate. }
    rewrite trans_diario_eq, posibles_trans_eq, Hm. now split.
  - intros t t'. rewrite posibles_trans_eq.
    destruct (haber_mode all_df); rewrite !in_map_iff;
      intros [l [<- _]] [l' [<- _]]; reflexivity.
Qed.


(** ** Python strings *)

Lemma prefix_spec (sub s : string) :
  String.prefix sub s = true <-> exists b, s = sub ++ b.
Proof.
  revert s. induction sub as [|c sub IH]; intros s.
  - split; [intros _; now exists s | intros _; now destruct s].
  - destruct s as [|c' s]; simpl.
    + split; [discriminate | intros [b Hb]; discriminate].
    + destruct (Ascii.ascii_dec c c') as [->|Hne].
      * rewrite IH. split; intros [b Hb]; exists b; congruence.
      * split; [discriminate | intros [b Hb]; congruence].
Qed.

(** [Py.contains] is the substring test. *)
Lemma contains_spec (sub s : string) :
  Py.contains sub s = true <-> exists a b, s = a ++ sub ++ b.
Proof.
  induction s as [|c s IH].
  - cbn [Py.contains]. rewrite orb_false_r, prefix_spec. split.
    + intros [b Hb]. now exists EmptyString, b.
    + intros [a [b Hab]]. destruct a; [now exists b | discriminate].
  - cbn [Py.contains]. rewrite orb_true_iff, prefix_spec, IH. split.
    + intros [[b Hb]|[a [b Hab]]].
      * now exists EmptyString, b.
      * exists (String c a), b. simpl. now rewrite Hab.
    + intros [a [b Hab]]. destruct a as [|c' a]; simpl in Hab.
      * left. now exists b.
      * right. exists a, b. congruence.
Qed.

Lemma lstrip_idem (s : string) : Py.lstrip (Py.lstrip s) = Py.lstrip s.
Proof.
  induction s as [|c s IH]; simpl; [reflexivity|].
  destruct (Py.is_space c) eqn:E; [exact IH|].
  simpl. now rewrite E.
Qed.

Lemma rstrip_cons (c : ascii) (s : string) :
  Py.rstrip (String c s) =
  match Py.rstrip s with
  | EmptyString => if Py.is_space c then EmptyString else String c EmptyString
  | r => String c r
  end.
Proof. reflexivity. Qed.

Lemma rstrip_idem (s : string) : Py.rstrip (Py.rstrip s) = Py.rstrip s.
Proof.
  induction s as [|c s IH]; [reflexivity|].
  rewrite rstrip_cons.
  destruct (Py.rstrip s) as [|c' r] eqn:E.
  - destruct (Py.is_space c) eqn:Ec; [reflexivity|].
    rewrite rstrip_cons. simpl. now rewrite Ec.
  - rewrite rstrip_cons, IH. reflexivity.
Qed.

Lemma rstrip_lstrip (s : string) :
  Py.rstrip (Py.lstrip s) = Py.lstrip (Py.rstrip s).
Proof.
  induction s as [|c s IH]; [reflexivity|].
  cbn [Py.lstrip]. rewrite (rstrip_cons c s).
  destruct (Py.is_space c) eqn:Ec.
  - rewrite IH. destruct (Py.rstrip s) as [|c' r]; [reflexivity|].
    cbn [Py.lstrip]. now rewrite Ec.
  - rewrite rstrip_cons.
    destruct (Py.rstrip s) as [|c' r]; cbn [Py.lstrip]; now rewrite Ec.
Qed.

Lemma strip_idem (s : string) : Py.strip (Py.strip s) = Py.strip s.
Proof.
  unfold Py.strip.
  now rewrite rstrip_lstrip, rstrip_idem, lstrip_idem.
Qed.


(** A trimmed string neither starts nor ends with a blank. *)
Lemma trimmed_no_leading_space (c : ascii) (s : string) :
  trimmed (String c s) -> Py.is_space c = false.
Proof.
  unfold trimmed, Py.strip. intros H.
  destruct (Py.is_space c) eqn:E; [|reflexivity].
  exfalso.
  assert (Hl : Py.lstrip (Py.lstrip (Py.rstrip (String c s))) = Py.lstrip (String c s))
    by now rewrite H.
  rewrite lstrip_idem, H in Hl. simpl in Hl. rewrite E in Hl.
  assert (Hlen : forall t, (String.length (Py.lstrip t) <= String.length t)%nat).
  { induction t as [|a t IHt]; simpl; [lia|].
    destruct (Py.is_space a); simpl; lia. }
  specialize (Hlen s). rewrite <- Hl in Hlen. simpl in Hlen. lia.
Qed.

(** ** Keywords *)

Lemma main_keywords_upper (arg : string) :
  main_keywords arg = map Py.upper (configured_keywords arg).
Proof.
  unfold main_keywords, configured_keywords. now rewrite map_map.
Qed.



(** ** Sheet names *)

Lemma span_digits_app (d r : string) :
  Py.all_digits d = true -> stops_digits r -> span_digits (d ++ r) = (d, r).
Proof.
  intros Hd Hr. induction d as [|c d IH]; simpl in *.
  - destruct r as [|c r]; simpl in *; [reflexivity|]. now rewrite Hr.
  - apply andb_true_iff in Hd. destruct Hd as [Hc Hd].
    now rewrite Hc, (IH Hd).
Qed.


Lemma sep_cases (c : ascii) : is_sep c = true -> c = "/"%char \/ c = "-"%char.
Proof.
  unfold is_sep. intros H. apply orb_true_iff in H.
  destruct H as [H|H]; apply Ascii.eqb_eq in H; auto.
Qed.

Lemma sep_not_digit (c : ascii) : is_sep c = true -> Py.is_digit c = false.
Proof. intros H. destruct (sep_cases c H) as [->| ->]; reflexivity. Qed.

Lemma sep_not_space (c : ascii) : is_sep c = true -> Py.is_space c = false.
Proof. intros H. destruct (sep_cases c H) as [->| ->]; reflexivity. Qed.

Lemma digit_not_space (c : ascii) : Py.is_digit c = true -> Py.is_space c = false.
Proof.
  unfold Py.is_digit, Py.is_space. intros H.
  apply andb_true_iff in H. destruct H as [H1 H2].
  apply Nat.leb_le in H1. apply Nat.leb_le in H2.
  apply orb_false_iff. split; apply andb_false_iff.
  - right. apply Nat.leb_gt. lia.
  - right. apply Nat.leb_gt. lia.
Qed.

Lemma re_match_date_complete (name g1 g2 g3 : string) :
  matches_date_pattern name g1 g2 g3 -> re_match_date name = Some (g1, g2, g3).
Proof.
  intros [c1 [c2 [-> [D1 [L1 [S1 [D2 [L2 [S2 [D3 L3]]]]]]]]]].
  unfold re_match_date.
  rewrite (span_digits_app g1 _ D1) by (simpl; now apply sep_not_digit).
  replace ((1 <=? String.length g1)%nat && (String.length g1 <=? 2)%nat) with true
    by (symmetry; apply andb_true_iff; split; apply Nat.leb_le; lia).
  rewrite S1.
  rewrite (span_digits_app g2 _ D2) by (simpl; now apply sep_not_digit).
  replace ((1 <=? String.length g2)%nat && (String.length g2 <=? 2)%nat) with true
    by (symmetry; apply andb_true_iff; split; apply Nat.leb_le; lia).
  rewrite S2.
  replace g3 with (g3 ++ "") at 1
    by (clear; induction g3; simpl; congruence).
  rewrite (span_digits_app g3 "" D3 I).
  now rewrite L3.
Qed.


Lemma no_space_app (a b : string) :
  no_space (a ++ b) = no_space a && no_space b.
Proof.
  induction a as [|c a IH]; simpl; [reflexivity|].
  now rewrite IH, andb_assoc.
Qed.

Lemma digits_no_space (s : string) : Py.all_digits s = true -> no_space s = true.
Proof.
  induction s as [|c s IH]; simpl; [reflexivity|].
  intros H. apply andb_true_iff in H. destruct H as [Hc Hs].
  now rewrite (digit_not_space c Hc), (IH Hs).
Qed.

Lemma no_space_strip (s : string) : no_space s = true -> Py.strip s = s.
Proof.
  intros H.
  assert (Hr : Py.rstrip s = s).
  { induction s as [|c s IH]; [reflexivity|].
    simpl in H. apply andb_true_iff in H. destruct H as [Hc Hs].
    apply negb_true_iff in Hc.
    rewrite rstrip_cons, (IH Hs), Hc. now destruct s. }
  unfold Py.strip. rewrite Hr.
  destruct s as [|c s]; [reflexivity|].
  simpl in *. apply andb_true_iff in H. destruct H as [Hc _].
  apply negb_true_iff in Hc. now rewrite Hc.
Qed.

Lemma pattern_name_is_trimmed (name g1 g2 g3 : string) :
  matches_date_pattern name g1 g2 g3 -> Py.strip name = name.
Proof.
  intros [c1 [c2 [-> [D1 [_ [S1 [D2 [_ [S2 [D3 _]]]]]]]]]].
  apply no_space_strip.
  rewrite no_space_app. simpl. rewrite no_space_app. simpl.
  rewrite !digits_no_space by assumption.
  now rewrite (sep_not_space c1 S1), (sep_not_space c2 S2).
Qed.

(** C6. A sheet name of the form D{1,2}[/-]M{1,2}[/-]YYYY is its own
    trimming, and for it (padded with blanks or not) the date derived has
    exactly the day, the month and the year that the three groups of digits
    denote: that date is derived whenever the three numbers are a date of the
    calendar, and no other date is ever derived. *)
Theorem sheet_date_fields_are_the_groups (name g1 g2 g3 : string) :
  matches_date_pattern name g1 g2 g3 ->
  Py.strip name = name /\
  forall raw, Py.strip raw = name ->
    (valid_ymd (Py.int g3) (Py.int g2) (Py.int g1) = true ->
     parse_sheet_date raw = Ok (Some (mk_date (Py.int g3) (Py.int g2) (Py.int g1)))) /\
    (forall dt, parse_sheet_date raw = Ok (Some dt) ->
                day dt = Py.int g1 /\ month dt = Py.int g2 /\ year dt = Py.int g3).
Proof.
  intros H. split; [now apply pattern_name_is_trimmed with g1 g2 g3|].
  intros raw Hraw. unfold parse_sheet_date.
  rewrite Hraw, (re_match_date_complete _ _ _ _ H).
  unfold Timestamp_date.
  destruct (valid_ymd (Py.int g3) (Py.int g2) (Py.int g1)); simpl; split.
  - reflexivity.
  - intros dt E. inversion E; subst. simpl. auto.
  - discriminate.
  - discriminate.
Qed.

(** ** Column detection *)

Lemma scan_fold (cols : list string) (cm : col_map) :
  fold_left scan_step cols cm =
  mk_col_map (or_else (last_match is_cuenta cols) (CUENTA cm))
             (or_else (last_match is_debe cols) (DEBE cm))
             (or_else (last_match is_haber cols) (HABER cm)).
Proof.
  revert cm. induction cols as [|c cols IH]; intros cm.
  - now destruct cm.
  - simpl fold_left. rewrite IH. unfold last_match. simpl rev.
    rewrite !find_snoc. unfold scan_step, is_cuenta, is_debe, is_haber.
    destruct (find _ (rev cols)), (find _ (rev cols)), (find _ (rev cols));
      destruct (Py.contains "CUENTA" c), (Py.contains "DEBE" c),
               (Py.contains "HABER" c); reflexivity.
Qed.

Lemma scan_columns_last (cols : list string) :
  scan_columns cols =
  mk_col_map (last_match is_cuenta cols) (last_match is_debe cols)
             (last_match is_haber cols).
Proof.
  unfold scan_columns. rewrite scan_fold. simpl.
  now destruct (last_match is_cuenta cols), (last_match is_debe cols),
               (last_match is_haber cols).
Qed.

Lemma detect_columns_fallback (cols : list string) :
  let b := base_cols cols in
  mk_col_map (nth 0 b None) (nth 1 b None)
             (if (2 <? List.length b)%nat then nth 2 b None else None) =
  mk_col_map (nth_error cols 0) (nth_error cols 1) (nth_error cols 2).
Proof.
  destruct cols as [|c0 [|c1 [|c2 rest]]]; reflexivity.
Qed.

(** ** The rows of a sheet *)

Lemma build_temp_In (f : option date) (c : list cell) (d h : list (option Q))
    (r : raw_row) :
  In r (build_temp f c d h) ->
  exists i, r = mk_raw f (nth i c NaN) (nth i d None) (nth i h None).
Proof.
  unfold build_temp. rewrite in_map_iff. intros [i [<- _]]. now exists i.
Qed.

Lemma nth_nil {A : Type} (i : nat) (a : A) : nth i [] a = a.
Proof. now destruct i. Qed.

Lemma load_sheet_inv (s : string) (df : DataFrame) (rows : list entry) :
  load_sheet s df = Ok rows ->
  let cm := detect_columns (columns (normalize_columns df)) in
  exists fecha cuenta debe haber,
    parse_sheet_date s = Ok fecha /\
    (CUENTA cm = None -> cuenta = []) /\
    (DEBE cm = None -> debe = []) /\
    (HABER cm = None -> haber = []) /\
    rows = map stringify
             (filter (fun r => negb (is_header_row r))
                (filter (fun r => negb (all_absent r))
                   (build_temp fecha cuenta debe haber))).
Proof.
  intros H. cbv zeta. unfold load_sheet in H. cbv zeta in H.
  destruct (parse_sheet_date s) as [fecha|e]; [|discriminate]. cbn [bind] in H.
  match type of H with
  | bind ?x _ = _ => destruct x as [debe|e] eqn:Ed; [|discriminate]
  end. cbn [bind] in H.
  match type of H with
  | bind ?x _ = _ => destruct x as [haber|e] eqn:Eh; [|discriminate]
  end. cbn [bind] in H.
  match type of H with
  | bind ?x _ = _ => destruct x as [cuenta|e] eqn:Ec; [|discriminate]
  end. cbn [bind] in H.
  exists fecha, cuenta, debe, haber.
  split; [reflexivity|].
  split; [intros Hn; rewrite Hn in Ec; now inversion Ec|].
  split; [intros Hn; rewrite Hn in Ed; now inversion Ed|].
  split; [intros Hn; rewrite Hn in Eh; now inversion Eh|].
  now inversion H.
Qed.

Lemma load_sheet_rows (s : string) (df : DataFrame) (rows : list entry) (e : entry) :
  load_sheet s df = Ok rows -> In e rows ->
  exists fecha r,
    parse_sheet_date s = Ok fecha /\
    e = stringify r /\ raw_Fecha r = fecha /\
    all_absent r = false /\ is_header_row r = false /\
    let cm := detect_columns (columns (normalize_columns df)) in
    (CUENTA cm = None -> raw_Cuenta r = NaN) /\
    (DEBE cm = None -> raw_Debe r = None) /\
    (HABER cm = None -> raw_Haber r = None).
Proof.
  intros H He. apply load_sheet_inv in H.
  destruct H as [fecha [cuenta [debe [haber [Hp [Hc [Hd [Hh ->]]]]]]]].
  apply in_map_iff in He. destruct He as [r [<- Hr]].
  apply filter_In in Hr. destruct Hr as [Hr Hhead].
  apply filter_In in Hr. destruct Hr as [Hr Habs].
  apply negb_true_iff in Hhead, Habs.
  apply build_temp_In in Hr. destruct Hr as [i ->].
  exists fecha. eexists. split; [exact Hp|]. split; [reflexivity|].
  split; [reflexivity|]. split; [exact Habs|]. split; [exact Hhead|].
  simpl. repeat split; intros Hn.
  - rewrite (Hc Hn). apply nth_nil.
  - rewrite (Hd Hn). apply nth_nil.
  - rewrite (Hh Hn). apply nth_nil.
Qed.



(** The lines of the ledger come from the rows of the sheets. *)
Lemma load_records_In (wb : list sheet) (records : list (list entry)) (temp : list entry) :
  load_records wb = Ok records -> In temp records ->
  exists sh df, In sh wb /\ read_excel sh = Some df /\
                load_sheet (sheet_name sh) df = Ok temp.
Proof.
  revert records. induction wb as [|sh wb IH]; intros records H Hin; simpl in H.
  - inversion H; subst. destruct Hin.
  - destruct (read_excel sh) as [df|] eqn:Er.
    + destruct (load_sheet (sheet_name sh) df) as [t|] eqn:El; [|discriminate].
      simpl in H. destruct (load_records wb) as [rs|]; [|discriminate].
      simpl in H. inversion H; subst. destruct Hin as [<-|Hin].
      * exists sh, df. split; [now left|]. now split.
      * destruct (IH rs eq_refl Hin) as [sh' [df' [H1 H2]]].
        exists sh', df'. split; [now right|exact H2].
    + destruct (IH records H Hin) as [sh' [df' [H1 H2]]].
      exists sh', df'. split; [now right|exact H2].
Qed.

Lemma load_ledger_In (wb : list sheet) (all_df : list line) (l : line) :
  load_ledger wb = Ok all_df -> In l all_df ->
  exists sh df rows e,
    In sh wb /\ read_excel sh = Some df /\
    load_sheet (sheet_name sh) df = Ok rows /\ In e rows /\
    e_Fecha e = Some (Fecha l) /\ e_Cuenta e = Cuenta l /\
    e_Debe e = Debe l /\ e_Haber e = Haber l.
Proof.
  unfold load_ledger. intros H Hl.
  destruct (load_records wb) as [records|] eqn:E; [|discriminate].
  simpl in H. inversion H; subst. clear H.
  unfold drop_undated in Hl. apply in_flat_map in Hl.
  destruct Hl as [e [He Hl]]. apply in_concat in He.
  destruct He as [rows [Hrows He]].
  destruct (load_records_In wb records rows E Hrows) as [sh [df [H1 [H2 H3]]]].
  exists sh, df, rows, e.
  destruct (e_Fecha e) as [d|] eqn:Ef; [|destruct Hl].
  destruct Hl as [<-|[]]. simpl. auto 10.
Qed.


(** C5, as the code has it. Each header is classified once, as the account
    column if it contains CUENTA, else as the debit column if it contains
    DEBE, else as the credit column if it contains HABER, and each of the
    three columns is the last header classified for it. When the account
    or the debit column is left without a header, the first three headers
    are taken by position instead. A column that detection leaves absent
    is missing on every row of the sheet: no debit, no credit, and for the
    account the text of a missing value. *)
Theorem detect_columns_last_match (cols : list string) :
  detect_columns cols =
    match last_match is_cuenta cols, last_match is_debe cols with
    | Some a, Some d => mk_col_map (Some a) (Some d) (last_match is_haber cols)
    | _, _ => mk_col_map (nth_error cols 0) (nth_error cols 1) (nth_error cols 2)
    end /\
  forall s df rows e,
    columns (normalize_columns df) = cols ->
    load_sheet s df = Ok rows -> In e rows ->
    (CUENTA (detect_columns cols) = None -> e_Cuenta e = "nan") /\
    (DEBE (detect_columns cols) = None -> e_Debe e = None) /\
    (HABER (detect_columns cols) = None -> e_Haber e = None).
Proof.
  split.
  - unfold detect_columns. rewrite scan_columns_last. simpl.
    destruct (last_match is_cuenta cols), (last_match is_debe cols);
      try reflexivity; apply detect_columns_fallback.
  - intros s df rows e <- Hs He.
    destruct (load_sheet_rows s df rows e Hs He)
      as [fecha [r [_ [-> [_ [_ [_ [Hc [Hd Hh]]]]]]]]].
    simpl. repeat split; intros Hn.
    + now rewrite (Hc Hn).
    + exact (Hd Hn).
    + exact (Hh Hn).
Qed.

(** ** The order of the sheets *)






(** ** The scenarios *)

Import Scenario.

(** Scenario A of the specification, from the workbook to the views. *)
Example scenario_A :
  exists s, main_sections [sheet_aug5] "CAJA MENOR" 300000%Q "PROVEEDOR,BANCO" = Ok s /\
            retiros s = [mk_retiro aug5 500000%Q "COMPRAS" 120000%Q 380000%Q] /\
            detalles s = [papeleria] /\ posibles_trans s = [].
Proof. eexists. split; [reflexivity|]. repeat split. Qed.

(** Scenario C: one credit anywhere makes credits the only transfers. *)
Example scenario_C :
  posibles_trans (compute_sections ledger_C "CAJA MENOR" 300000%Q ["BANCO"])
  = [mk_transfer abono "HABER"].
Proof. reflexivity. Qed.

(** An account that merely contains the petty-cash name is no withdrawal. *)
Example petty_cash_is_not_a_substring_match :
  retiros (compute_sections [mk_line aug5 "CAJA MENOR 2" (Some 500000%Q) None]
                            "CAJA MENOR" 300000%Q []) = [].
Proof. reflexivity. Qed.



Lemma transfer_mode_is_global_witness :
  ((0 < sum_Q (map (fun l => fillna0 (Haber l)) ledger_C))%Q /\
   posibles_trans (compute_sections ledger_C "CAJA MENOR" 300000%Q ["BANCO"])
   = [mk_transfer abono "HABER"]) /\
  ((sum_Q (map (fun l => fillna0 (Haber l)) ledger_B) == 0)%Q /\
   posibles_trans (compute_sections ledger_B "CAJA MENOR" 300000%Q ["BANCO"])
   = [mk_transfer banco "DEBE(MAYOR)"]).
Proof.
  split.
  - assert (H : (0 < sum_Q (map (fun l => fillna0 (Haber l)) ledger_C))%Q)
      by reflexivity.
    split; [exact H|].
    exact (proj1 (proj1 (transfer_mode_is_global
                           ledger_C "CAJA MENOR" 300000%Q ["BANCO"]) H)).
  - assert (H : (sum_Q (map (fun l => fillna0 (Haber l)) ledger_B) == 0)%Q)
      by reflexivity.
    split; [exact H|].
    exact (proj1 (proj1 (proj2 (transfer_mode_is_global
                                  ledger_B "CAJA MENOR" 300000%Q ["BANCO"])) H)).
Defined.



Lemma sheet_date_fields_are_the_groups_witness :
  matches_date_pattern "5-08/2025" "5" "08" "2025" /\
  parse_sheet_date " 5-08/2025 " = Ok (Some (mk_date 2025 8 5)).
Proof.
  assert (H : matches_date_pattern "5-08/2025" "5" "08" "2025").
  { exists "-"%char, "/"%char. simpl. repeat split; lia. }
  split; [exact H|].
  exact (proj1 (proj2 (sheet_date_fields_are_the_groups
                         "5-08/2025" "5" "08" "2025" H)
                      " 5-08/2025 " eq_refl) eq_refl).
Defined.

(** C5, the specification's reading refuted: the first header that contains
    the account token is not the one chosen. *)
Lemma first_header_not_chosen :
  find (Py.contains "CUENTA") headers_subcuenta = Some "CUENTA" /\
  CUENTA (detect_columns headers_subcuenta) = Some "SUBCUENTA" /\
  detect_columns headers_subcuenta <> spec_detect_columns headers_subcuenta.
Proof.
  split; [reflexivity|]. split; [reflexivity|]. vm_compute. discriminate.
Qed.

Lemma detect_columns_last_match_witness :
  detect_columns headers_subcuenta
  = mk_col_map (Some "SUBCUENTA") (Some "DEBE") (Some "HABER").
Proof.
  exact (proj1 (detect_columns_last_match headers_subcuenta)).
Defined.



(** C7, where the code departs from it: a sheet named after a day that the
    calendar does not have (or with the month written first) stops the whole
    load, the sheets before it included. *)
Theorem invalid_calendar_date_aborts_load :
  re_match_date "31-02-2025" = Some ("31", "02", "2025") /\
  parse_sheet_date "31-02-2025" = Raise ValueError /\
  parse_sheet_date "08-25-2025" = Raise ValueError /\
  load_ledger [sheet_aug5; sheet_feb31] = Raise ValueError.
Proof. repeat split. Qed.

(** C8, where the code departs from it: a repeated header row whose account
    cell carries a blank passes the test for header rows, which looks at
    the text before it is trimmed, and enters the ledger with the account
    of a header once trimmed. *)
Theorem padded_header_row_enters_ledger :
  load_ledger [sheet_repeated_header]
  = Ok [caja; mk_line aug5 "Cuenta" None None] /\
  Py.upper (Py.strip "Cuenta ") = "CUENTA".
Proof. split; reflexivity. Qed.

(** * Further properties of the loader *)

(** ** Sheet names, completed *)


(** ** Sheets that cannot be read, and workbooks put together *)




(** ** The dates of the ledger *)

Lemma parse_some_valid (name : string) (d : date) :
  parse_sheet_date name = Ok (Some d) ->
  valid_ymd (year d) (month d) (day d) = true.
Proof.
  unfold parse_sheet_date.
  destruct (re_match_date (Py.strip name)) as [[[g1 g2] g3]|]; [|discriminate].
  unfold Timestamp_date.
  destruct (valid_ymd (Py.int g3) (Py.int g2) (Py.int g1)) eqn:V; [|discriminate].
  simpl. intros E. inversion E; subst. exact V.
Qed.

(** X5. Every line of a ledger is dated with the date its sheet is named
    after, which is a date of the calendar: month in 1..12, day within the
    month, year in 1..9999. *)
Theorem ledger_dates_are_calendar_dates
    (wb : list sheet) (all_df : list line) (l : line) :
  load_ledger wb = Ok all_df -> In l all_df ->
  (exists sh, In sh wb /\ readable sh = true /\
              parse_sheet_date (sheet_name sh) = Ok (Some (Fecha l))) /\
  1 <= year (Fecha l) <= 9999 /\ 1 <= month (Fecha l) <= 12 /\
  1 <= day (Fecha l) <= days_in_month (year (Fecha l)) (month (Fecha l)).
Proof.
  intros H Hl.
  destruct (load_ledger_In wb all_df l H Hl)
    as [sh [df [rows [e [Hsh [Hr [Hs [He [Hf _]]]]]]]]].
  destruct (load_sheet_rows _ _ _ _ Hs He) as [fecha [r [Hp [-> [Hfr _]]]]].
  simpl in Hf. rewrite Hfr in Hf. subst fecha.
  split.
  - exists sh. split; [exact Hsh|]. split; [|exact Hp].
    unfold readable. now rewrite Hr.
  - apply parse_some_valid in Hp. unfold valid_ymd in Hp.
    repeat (apply andb_true_iff in Hp; destruct Hp as [Hp ?]).
    repeat match goal with
           | H : (_ <=? _) = true |- _ => apply Z.leb_le in H
           end.
    lia.
Qed.

(** ** When the load raises *)








(** ** Sheets without a credit column *)

(** X8. When detection finds no credit column in any readable sheet, no line of
    the ledger has a credit, and the run classifies transfers by keywords:
    every candidate is tagged as debit-based. *)
Theorem no_credit_column_means_keyword_mode
    (wb : list sheet) (all_df : list line) (petty : string) (m : Q)
    (kws : list string) :
  load_ledger wb = Ok all_df ->
  (forall sh df, In sh wb -> read_excel sh = Some df ->
                 HABER (detect_columns (columns (normalize_columns df))) = None) ->
  (forall l, In l all_df -> Haber l = None) /\
  haber_mode all_df = false /\
  forall t, In t (posibles_trans (compute_sections all_df petty m kws)) ->
            Tipo t = "DEBE(MAYOR)".
Proof.
  intros H Hcol.
  assert (Hnone : forall l, In l all_df -> Haber l = None).
  { intros l Hl.
    destruct (load_ledger_In wb all_df l H Hl)
      as [sh [df [rows [e [Hsh [Hr [Hs [He [_ [_ [_ Hh]]]]]]]]]]].
    destruct (load_sheet_rows _ _ _ _ Hs He)
      as [fecha [r [_ [-> [_ [_ [_ [_ [_ Hnh]]]]]]]]].
    simpl in Hh. rewrite <- Hh. apply Hnh. now apply (Hcol sh df). }
  assert (Hmode : haber_mode all_df = false).
  { unfold haber_mode. apply andb_false_iff. left.
    destruct (existsb (fun l => notna (Haber l)) all_df) eqn:E; [|reflexivity].
    apply existsb_exists in E. destruct E as [l [Hl Hn]].
    rewrite (Hnone l Hl) in Hn. discriminate. }
  split; [exact Hnone|]. split; [exact Hmode|].
  intros t. rewrite posibles_trans_eq, Hmode, in_map_iff.
  intros [l [<- _]]. reflexivity.
Qed.

(** ** Headers that name each column once *)

Lemma find_rev_single {A : Type} (p : A -> bool) (l : list A) :
  (List.length (filter p l) <= 1)%nat -> find p (rev l) = find p l.
Proof.
  induction l as [|x l IH]; [reflexivity|].
  simpl. intros H. rewrite find_snoc.
  destruct (p x) eqn:E.
  - simpl in H.
    assert (Hnil : filter p l = []) by (destruct (filter p l); [reflexivity|simpl in H; lia]).
    rewrite IH by (rewrite Hnil; simpl; lia).
    assert (Hf : find p l = None).
    { destruct (find p l) eqn:F; [|reflexivity].
      apply find_some in F. destruct F as [Hin Hp].
      assert (In a (filter p l)) by now apply filter_In.
      rewrite Hnil in *. contradiction. }
    now rewrite Hf.
  - rewrite IH by exact H. now destruct (find p l).
Qed.

Lemma find_ext_in {A : Type} (p q : A -> bool) (l : list A) :
  (forall x, In x l -> p x = q x) -> find p l = find q l.
Proof.
  induction l as [|x l IH]; [reflexivity|].
  intros H. simpl. rewrite (H x (or_introl eq_refl)).
  destruct (q x); [reflexivity|]. apply IH. intros y Hy. apply H. now right.
Qed.

Lemma filter_ext_in_length {A : Type} (p q : A -> bool) (l : list A) :
  (forall x, In x l -> p x = q x) -> filter p l = filter q l.
Proof.
  induction l as [|x l IH]; [reflexivity|].
  intros H. simpl. rewrite (H x (or_introl eq_refl)), IH; [reflexivity|].
  intros y Hy. apply H. now right.
Qed.

(** X9. When no two headers contain the same token and no header contains two
    of the tokens, the columns detected are those of the first-match
    reading: detection then does not depend on which match is kept. *)
Theorem detect_columns_unambiguous_headers (cols : list string) :
  (forall tok, In tok ["CUENTA"; "DEBE"; "HABER"] ->
               (List.length (filter (Py.contains tok) cols) <= 1)%nat) ->
  (forall c, In c cols ->
             Py.contains "CUENTA" c && Py.contains "DEBE" c = false /\
             Py.contains "CUENTA" c && Py.contains "HABER" c = false /\
             Py.contains "DEBE" c && Py.contains "HABER" c = false) ->
  detect_columns cols = spec_detect_columns cols.
Proof.
  intros Hu Hx.
  assert (Hc : last_match is_cuenta cols = find (Py.contains "CUENTA") cols).
  { unfold last_match, is_cuenta. apply find_rev_single, Hu. simpl; auto. }
  assert (Hd : last_match is_debe cols = find (Py.contains "DEBE") cols).
  { unfold last_match.
    assert (E : forall c, In c cols -> is_debe c = Py.contains "DEBE" c).
    { intros c Hin. destruct (Hx c Hin) as [H1 _]. unfold is_debe.
      destruct (Py.contains "CUENTA" c), (Py.contains "DEBE" c);
        simpl in *; congruence. }
    rewrite find_rev_single.
    - now apply find_ext_in.
    - rewrite (filter_ext_in_length _ _ cols E). apply Hu. simpl; auto. }
  assert (Hh : last_match is_haber cols = find (Py.contains "HABER") cols).
  { unfold last_match.
    assert (E : forall c, In c cols -> is_haber c = Py.contains "HABER" c).
    { intros c Hin. destruct (Hx c Hin) as [_ [H2 H3]]. unfold is_haber.
      destruct (Py.contains "CUENTA" c), (Py.contains "DEBE" c),
               (Py.contains "HABER" c); simpl in *; congruence. }
    rewrite find_rev_single.
    - now apply find_ext_in.
    - rewrite (filter_ext_in_length _ _ cols E). apply Hu. simpl; auto. }
  unfold detect_columns, spec_detect_columns.
  rewrite scan_columns_last. simpl. rewrite Hc, Hd, Hh.
  destruct (find (Py.contains "CUENTA") cols), (find (Py.contains "DEBE") cols);
    try reflexivity; apply detect_columns_fallback.
Qed.

(** * Further properties of the classifier *)

(** ** Totals over groups *)

Lemma sum_Q_zeros {A : Type} (l : list A) : sum_Q (map (fun _ => 0%Q) l) = 0%Q.
Proof.
  induction l as [|x l IH]; simpl; [reflexivity|].
  now rewrite IH.
Qed.


Section GroupTotals.
Context {A : Type}.
Variable key : A -> date.
Variable val : A -> option Q.


End GroupTotals.




(** ** Signs and order of the views *)

Lemma sum_Q_nonneg (l : list Q) :
  (forall x, In x l -> (0 <= x)%Q) -> (0 <= sum_Q l)%Q.
Proof.
  induction l as [|x l IH]; simpl; intros H; [discriminate|].
  change 0%Q with (0 + 0)%Q at 1.
  apply Qplus_le_compat.
  - apply H. now left.
  - apply IH. intros y Hy. apply H. now right.
Qed.

Lemma sum_Q_pos (l : list Q) :
  l <> [] -> (forall x, In x l -> (0 < x)%Q) -> (0 < sum_Q l)%Q.
Proof.
  destruct l as [|x l]; [congruence|]. intros _ H. simpl.
  change 0%Q with (0 + 0)%Q at 1.
  apply Qplus_lt_le_compat.
  - apply H. now left.
  - apply sum_Q_nonneg. intros y Hy. apply Qlt_le_weak, H. now right.
Qed.


(** ** What the transfer settings reach *)

(** X13. The threshold and the keywords touch neither the withdrawals view nor
    the itemized lines, and once the credits of the ledger sum above 0 they
    touch nothing at all. *)
Theorem transfer_settings_reach
    (all_df : list line) (petty : string) (m m' : Q) (kws kws' : list string) :
  let s := compute_sections all_df petty m kws in
  let s' := compute_sections all_df petty m' kws' in
  retiros s = retiros s' /\ detalles s = detalles s' /\
  (haber_mode all_df = true -> s = s').
Proof.
  intros s s'. subst s s'. split; [|split].
  - rewrite !retiros_eq, !detalles_eq. reflexivity.
  - rewrite !detalles_eq. reflexivity.
  - intros H. unfold compute_sections. rewrite H. reflexivity.
Qed.

(** X14. A lower threshold or more keywords never lose a transfer candidate. *)
Theorem candidates_grow_with_settings
    (all_df : list line) (petty : string) (m m' : Q) (kws kws' : list string)
    (t : transfer) :
  (m <= m')%Q -> incl kws kws' ->
  In t (posibles_trans (compute_sections all_df petty m' kws)) ->
  In t (posibles_trans (compute_sections all_df petty m kws')).
Proof.
  intros Hm Hk. rewrite !posibles_trans_eq.
  destruct (haber_mode all_df); [tauto|].
  rewrite !in_map_iff. intros [l [<- Hl]]. exists l. split; [reflexivity|].
  apply filter_In in Hl. destruct Hl as [Hin Hq].
  apply andb_true_iff in Hq. destruct Hq as [Hge Hkw].
  apply filter_In. split; [exact Hin|]. apply andb_true_iff. split.
  - apply ge_spec in Hge. destruct Hge as [v [Hv Hle]].
    apply ge_spec. exists v. split; [exact Hv|]. now apply Qle_trans with m'.
  - unfold mask_kw in *. apply existsb_exists in Hkw.
    destruct Hkw as [k [Hin' Hc]]. apply existsb_exists. exists k.
    split; [now apply Hk|exact Hc].
Qed.

(** ** Keywords *)

Lemma append_assoc (a b c : string) : ((a ++ b) ++ c = a ++ (b ++ c))%string.
Proof. induction a as [|x a IH]; simpl; [reflexivity|]. now rewrite IH. Qed.

Lemma contains_trans (k k' x : string) :
  Py.contains k k' = true -> Py.contains k' x = true -> Py.contains k x = true.
Proof.
  rewrite !contains_spec. intros [a [b ->]] [a' [b' ->]].
  exists (a' ++ a), (b ++ b'). now rewrite !append_assoc.
Qed.

(** X15. A keyword that contains another keyword of the list adds nothing: the
    sections are the same with and without it. *)
Theorem longer_keyword_is_redundant
    (all_df : list line) (petty : string) (m : Q) (kws : list string)
    (k k' : string) :
  In k kws -> Py.contains k k' = true ->
  compute_sections all_df petty m (k' :: kws) = compute_sections all_df petty m kws.
Proof.
  intros Hin Hc.
  assert (Hmask : forall l, mask_kw (k' :: kws) l = mask_kw kws l).
  { intros l. unfold mask_kw. simpl.
    destruct (Py.contains k' (Py.upper (Cuenta l))) eqn:E; [|reflexivity].
    simpl. symmetry. apply existsb_exists. exists k. split; [exact Hin|].
    now apply contains_trans with k'. }
  unfold compute_sections.
  rewrite (filter_ext (fun l => ge (Debe l) m && mask_kw (k' :: kws) l)
                      (fun l => ge (Debe l) m && mask_kw kws l))
    by (intros l; now rewrite Hmask).
  reflexivity.
Qed.

Lemma upper_char_idem (c : ascii) : Py.upper_char (Py.upper_char c) = Py.upper_char c.
Proof.
  unfold Py.upper_char. destruct (Py.is_lower c) eqn:E; [|now rewrite E].
  unfold Py.is_lower in *. apply andb_true_iff in E. destruct E as [E1 E2].
  apply Nat.leb_le in E1, E2.
  rewrite nat_ascii_embedding by lia.
  replace ((97 <=? nat_of_ascii c - 32)%nat) with false; [reflexivity|].
  symmetry. apply Nat.leb_gt. lia.
Qed.

Lemma upper_idem (s : string) : Py.upper (Py.upper s) = Py.upper s.
Proof.
  induction s as [|c s IH]; simpl; [reflexivity|].
  now rewrite upper_char_idem, IH.
Qed.

Lemma upper_char_space (c : ascii) : Py.is_space (Py.upper_char c) = Py.is_space c.
Proof.
  unfold Py.upper_char. destruct (Py.is_lower c) eqn:E; [|reflexivity].
  unfold Py.is_lower in E. apply andb_true_iff in E. destruct E as [E1 E2].
  apply Nat.leb_le in E1, E2.
  unfold Py.is_space. rewrite nat_ascii_embedding by lia.
  replace ((nat_of_ascii c - 32 <=? 13)%nat) with false
    by (symmetry; apply Nat.leb_gt; lia).
  replace ((nat_of_ascii c - 32 <=? 32)%nat) with false
    by (symmetry; apply Nat.leb_gt; lia).
  replace ((nat_of_ascii c <=? 13)%nat) with false
    by (symmetry; apply Nat.leb_gt; lia).
  replace ((nat_of_ascii c <=? 32)%nat) with false
    by (symmetry; apply Nat.leb_gt; lia).
  now rewrite !andb_false_r.
Qed.

Lemma upper_lstrip (s : string) : Py.lstrip (Py.upper s) = Py.upper (Py.lstrip s).
Proof.
  induction s as [|c s IH]; simpl; [reflexivity|].
  rewrite upper_char_space. now destruct (Py.is_space c).
Qed.

Lemma upper_rstrip (s : string) : Py.rstrip (Py.upper s) = Py.upper (Py.rstrip s).
Proof.
  induction s as [|c s IH]; [reflexivity|].
  cbn [Py.upper]. rewrite !rstrip_cons, IH, upper_char_space.
  destruct (Py.rstrip s); simpl; [now destruct (Py.is_space c)|reflexivity].
Qed.

Lemma upper_strip (s : string) : Py.strip (Py.upper s) = Py.upper (Py.strip s).
Proof. unfold Py.strip. now rewrite upper_rstrip, upper_lstrip. Qed.

(** X16. The keywords handed to the classifier are never empty, are in upper
    case and carry no blank at either end; so no keyword matches every
    account, and a setting made of commas and blanks only yields no keyword
    and, under the keyword rule, no transfer candidate. *)
Theorem main_keywords_are_normalized
    (arg : string) (all_df : list line) (petty : string) (m : Q) :
  (forall k, In k (main_keywords arg) ->
             k <> "" /\ Py.upper k = k /\ Py.strip k = k) /\
  (configured_keywords arg = [] -> haber_mode all_df = false ->
   posibles_trans (compute_sections all_df petty m (main_keywords arg)) = []).
Proof.
  split.
  - intros k Hk. unfold main_keywords in Hk. apply in_map_iff in Hk.
    destruct Hk as [k0 [<- Hk0]]. apply filter_In in Hk0.
    destruct Hk0 as [_ Ht]. split; [|split].
    + destruct (Py.strip k0); [discriminate|]. simpl. discriminate.
    + apply upper_idem.
    + now rewrite upper_strip, strip_idem.
  - intros Hnil Hmode. rewrite posibles_trans_eq, Hmode, main_keywords_upper, Hnil.
    simpl. rewrite filter_none; [reflexivity|].
    intros l _. apply andb_false_r.
Qed.

(** * Properties of the formatting helpers *)

(** ** fmt_date *)

Lemma digit_char_code (k : Z) :
  0 <= k <= 9 -> nat_of_ascii (digit_char k) = (48 + Z.to_nat k)%nat.
Proof. intros H. unfold digit_char. apply nat_ascii_embedding. lia. Qed.

Lemma digit_char_is_digit (k : Z) : 0 <= k <= 9 -> Py.is_digit (digit_char k) = true.
Proof.
  intros H. unfold Py.is_digit. rewrite digit_char_code by exact H.
  apply andb_true_iff. split; apply Nat.leb_le; lia.
Qed.

Lemma digit_char_value (k : Z) : 0 <= k <= 9 -> Py.digit_value (digit_char k) = k.
Proof.
  intros H. unfold Py.digit_value. rewrite digit_char_code by exact H. lia.
Qed.

Lemma two_digits_spec (n : Z) :
  0 <= n <= 99 ->
  Py.all_digits (two_digits n) = true /\ String.length (two_digits n) = 2%nat /\
  Py.int (two_digits n) = n.
Proof.
  intros H.
  assert (H1 : 0 <= n / 10 <= 9) by (Z.div_mod_to_equations; lia).
  assert (H2 : 0 <= n mod 10 <= 9) by (Z.div_mod_to_equations; lia).
  unfold two_digits, Py.int. cbn [Py.all_digits Py.int_acc String.length].
  rewrite !digit_char_is_digit, !digit_char_value by assumption.
  repeat split. Z.div_mod_to_equations. lia.
Qed.

Lemma four_digits_spec (n : Z) :
  0 <= n <= 9999 ->
  Py.all_digits (four_digits n) = true /\ String.length (four_digits n) = 4%nat /\
  Py.int (four_digits n) = n.
Proof.
  intros H.
  assert (H1 : 0 <= n / 1000 <= 9) by (Z.div_mod_to_equations; lia).
  assert (H2 : 0 <= (n / 100) mod 10 <= 9) by (Z.div_mod_to_equations; lia).
  assert (H3 : 0 <= (n / 10) mod 10 <= 9) by (Z.div_mod_to_equations; lia).
  assert (H4 : 0 <= n mod 10 <= 9) by (Z.div_mod_to_equations; lia).
  unfold four_digits, Py.int. cbn [Py.all_digits Py.int_acc String.length].
  rewrite !digit_char_is_digit, !digit_char_value by assumption.
  repeat split. Z.div_mod_to_equations. lia.
Qed.

(** X17. The text of a date is a sheet name of the pattern that is read back as
    the same date: for every date of the calendar with a year of four
    digits, parsing what [fmt_date] prints gives the date again. *)
Theorem fmt_date_parses_back (d : date) :
  valid_ymd (year d) (month d) (day d) = true -> 1000 <= year d ->
  matches_date_pattern (fmt_date d) (two_digits (day d)) (two_digits (month d))
                       (four_digits (year d)) /\
  parse_sheet_date (fmt_date d) = Ok (Some d).
Proof.
  intros V Hy.
  assert (B : 1 <= year d <= 9999 /\ 1 <= month d <= 12 /\ 1 <= day d <= 31).
  { unfold valid_ymd in V.
    repeat (apply andb_true_iff in V; destruct V as [V ?]).
    repeat match goal with
           | H : (_ <=? _) = true |- _ => apply Z.leb_le in H
           end.
    assert (days_in_month (year d) (month d) <= 31).
    { unfold days_in_month.
      destruct (month d =? 2); [destruct (is_leap (year d)); lia|].
      destruct ((month d =? 4) || (month d =? 6) || (month d =? 9) || (month d =? 11)); lia. }
    lia. }
  destruct B as [By [Bm Bd]].
  destruct (two_digits_spec (day d)) as [D1 [L1 I1]]; [lia|].
  destruct (two_digits_spec (month d)) as [D2 [L2 I2]]; [lia|].
  destruct (four_digits_spec (year d)) as [D3 [L3 I3]]; [lia|].
  assert (M : matches_date_pattern (fmt_date d) (two_digits (day d))
                (two_digits (month d)) (four_digits (year d))).
  { exists "/"%char, "/"%char. unfold fmt_date.
    repeat split; auto; try lia. }
  split; [exact M|].
  unfold parse_sheet_date.
  rewrite (pattern_name_is_trimmed _ _ _ _ M), (re_match_date_complete _ _ _ _ M).
  rewrite I1, I2, I3. unfold Timestamp_date. rewrite V. simpl.
  now destruct d.
Qed.

(** ** money *)

















(** * Properties of the renderers *)

(** ** Sorting by insertion is a way to sort *)

Lemma insert_sorted_perm {A : Type} (le : A -> A -> bool) (x : A) (l : list A) :
  Permutation (x :: l) (insert_sorted le x l).
Proof.
  induction l as [|y l IH]; simpl; [apply Permutation_refl|].
  destruct (le x y); [apply Permutation_refl|].
  apply perm_trans with (y :: x :: l); [apply perm_swap|].
  now constructor.
Qed.

Lemma insertion_sort_perm {A : Type} (le : A -> A -> bool) (l : list A) :
  Permutation l (insertion_sort le l).
Proof.
  induction l as [|x l IH]; simpl; [constructor|].
  apply perm_trans with (x :: insertion_sort le l); [now constructor|].
  apply insert_sorted_perm.
Qed.

Lemma insert_sorted_sorted {A : Type} (le : A -> A -> bool) (x : A) (l : list A) :
  (forall a b, le a b = true \/ le b a = true) ->
  Sorted (fun a b => le a b = true) l ->
  Sorted (fun a b => le a b = true) (insert_sorted le x l).
Proof.
  intros Htot. induction 1 as [|y l Hs IH Hy]; simpl.
  - repeat constructor.
  - destruct (le x y) eqn:E.
    + constructor; [now constructor|]. now constructor.
    + constructor; [exact IH|].
      destruct l as [|z l]; simpl.
      * constructor. destruct (Htot x y); congruence.
      * destruct (le x z).
        -- constructor. destruct (Htot x y); congruence.
        -- inversion Hy; subst. now constructor.
Qed.

Lemma insertion_sort_sorted {A : Type} (le : A -> A -> bool) (l : list A) :
  (forall a b, le a b = true \/ le b a = true) ->
  Sorted (fun a b => le a b = true) (insertion_sort le l).
Proof.
  intros Htot. induction l as [|x l IH]; simpl; [constructor|].
  now apply insert_sorted_sorted.
Qed.

#[export] Instance insertion_sorter : SortValues :=
  {| sort_values := @insertion_sort;
     sort_values_perm := @insertion_sort_perm;
     sort_values_sorted := @insertion_sort_sorted |}.

Lemma by_cuenta_total {A : Type} (key : A -> string) (x y : A) :
  by_cuenta key x y = true \/ by_cuenta key y x = true.
Proof. unfold by_cuenta. apply String.leb_total. Qed.

Lemma by_fecha_total {A : Type} (key : A -> date) (x y : A) :
  by_fecha key x y = true \/ by_fecha key y x = true.
Proof.
  unfold by_fecha.
  destruct (date_compare (key x) (key y)) eqn:C; auto.
  right. apply date_compare_gt in C. unfold date_lt in C. now rewrite C.
Qed.

(** ** The days of the report *)

Lemma flat_map_split {A B : Type} (f : A -> list B) (x : A) (l : list A) :
  In x l -> exists l1 l2, flat_map f l = (flat_map f l1 ++ f x ++ flat_map f l2)%list.
Proof.
  intros H. apply in_split in H. destruct H as [l1 [l2 ->]].
  exists l1, l2. now rewrite flat_map_app.
Qed.

Lemma occurs_here {A : Type} (seg rest : list A) : occurs seg (seg ++ rest).
Proof. now exists [], rest. Qed.

Lemma occurs_app_l {A : Type} (seg a b : list A) : occurs seg a -> occurs seg (a ++ b).
Proof.
  intros [pre [post ->]]. exists pre, (post ++ b)%list.
  now rewrite <- !app_assoc.
Qed.

Lemma occurs_app_r {A : Type} (seg a b : list A) : occurs seg b -> occurs seg (a ++ b).
Proof.
  intros [pre [post ->]]. exists (a ++ pre)%list, post.
  now rewrite <- !app_assoc.
Qed.

Lemma occurs_cons {A : Type} (seg : list A) (x : A) (l : list A) :
  occurs seg l -> occurs seg (x :: l).
Proof. apply (occurs_app_r seg [x] l). Qed.

Lemma occurs_flat_map {A B : Type} (f : A -> list B) (seg : list B) (x : A) (l : list A) :
  In x l -> occurs seg (f x) -> occurs seg (flat_map f l).
Proof.
  intros Hin Hseg. destruct (flat_map_split f x l Hin) as [l1 [l2 ->]].
  apply occurs_app_r, occurs_app_l, Hseg.
Qed.

Lemma match_nonempty {A B : Type} (l : list A) (a b : B) :
  l <> [] -> match l with [] => b | _ :: _ => a end = a.
Proof. destruct l; [congruence|reflexivity]. Qed.

Section ReportFacts.
Context {sorter : SortValues}.

Lemma detalle_rows_sorted (sub : list line) :
  exists sorted,
    detalle_rows sub = map (fun l => [Cuenta l; money (Debe l)]) sorted /\
    Permutation sub sorted /\
    Sorted (fun a b => String.leb (Cuenta a) (Cuenta b) = true) sorted.
Proof.
  exists (sort_values (by_cuenta Cuenta) sub). split; [reflexivity|]. split.
  - apply sort_values_perm.
  - apply (sort_values_sorted line (by_cuenta Cuenta)). apply by_cuenta_total.
Qed.

(** Where the day of a date stands in each report. *)
Lemma detalle_dia_occurs
    (now : date) (empresa mes responsable : string)
    (retiros : list retiro) (detalles : list line)
    (posibles_trans : list transfer) (trans_diario : list (date * Q))
    (total_trans : Q) (d : date) (seg : list block) :
  In d (map Fecha detalles) ->
  occurs seg (detalle_dia retiros d (group Fecha d detalles)) ->
  exists doc,
    build_docx true now empresa mes responsable retiros detalles
               posibles_trans trans_diario total_trans = Saved doc /\
    occurs seg doc.
Proof.
  intros Hd Hseg.
  assert (Hne : detalles <> []) by (destruct detalles; [destruct Hd|discriminate]).
  unfold build_docx. cbn [negb]. rewrite (match_nonempty detalles) by exact Hne.
  eexists. split; [reflexivity|].
  apply occurs_app_r, occurs_app_r, occurs_app_r, occurs_app_l.
  apply occurs_flat_map with (x := d); [now apply group_keys_In|exact Hseg].
Qed.

Lemma detalle_dia_tablas_occurs
    (now : date) (empresa mes responsable : string)
    (retiros : list retiro) (detalles : list line)
    (posibles_trans : list transfer) (trans_diario : list (date * Q))
    (total_trans : Q) (d : date) (seg : list block) :
  In d (map Fecha detalles) ->
  occurs seg (detalle_dia_tablas retiros d (group Fecha d detalles)) ->
  exists doc,
    build_docx_tables true now empresa mes responsable retiros detalles
                      posibles_trans trans_diario total_trans = Saved doc /\
    occurs seg doc.
Proof.
  intros Hd Hseg.
  assert (Hne : detalles <> []) by (destruct detalles; [destruct Hd|discriminate]).
  unfold build_docx_tables. cbn [negb]. rewrite (match_nonempty detalles) by exact Hne.
  eexists. split; [reflexivity|].
  apply occurs_app_r, occurs_app_r, occurs_app_r, occurs_app_l.
  apply occurs_flat_map with (x := d); [now apply group_keys_In|exact Hseg].
Qed.

(** X20. Both renderers list every itemized line once under the heading of its
    day, in a table sorted by account: the rows of the table of a day are
    the lines of that day, each with its account and the text of its debit;
    the table of the second renderer goes on with the rows of the totals. *)
Theorem itemized_lines_listed_by_day
    (now : date) (empresa mes responsable : string)
    (retiros : list retiro) (detalles : list line)
    (posibles_trans : list transfer) (trans_diario : list (date * Q))
    (total_trans : Q) (d : date) :
  In d (map Fecha detalles) ->
  exists sorted,
    Permutation (filter (fun l => date_eqb (Fecha l) d) detalles) sorted /\
    Sorted (fun a b => String.leb (Cuenta a) (Cuenta b) = true) sorted /\
    (exists doc,
       build_docx true now empresa mes responsable retiros detalles
                  posibles_trans trans_diario total_trans = Saved doc /\
       occurs [Heading (fmt_date d) 3;
               Table (mk_table (Some LEFT) None
                        (["Concepto"; "Valor"]
                         :: map (fun l => [Cuenta l; money (Debe l)]) sorted))] doc) /\
    (exists doc rest,
       build_docx_tables true now empresa mes responsable retiros detalles
                         posibles_trans trans_diario total_trans = Saved doc /\
       occurs [Paragraph (fmt_date d) true;
               grid ((["Concepto"; "Valor"]
                      :: map (fun l => [Cuenta l; money (Debe l)]) sorted) ++ rest)] doc).
Proof.
  intros Hd.
  destruct (detalle_rows_sorted (group Fecha d detalles)) as [sorted [Hrows [HP HS]]].
  exists sorted. split; [exact HP|]. split; [exact HS|]. split.
  - apply detalle_dia_occurs with (d := d); [exact Hd|].
    unfold detalle_dia. cbv zeta. rewrite Hrows.
    apply (occurs_here [_; _]).
  - destruct (detalle_dia_tablas_occurs now empresa mes responsable retiros detalles
                posibles_trans trans_diario total_trans d
                [Paragraph (fmt_date d) true;
                 grid ((["Concepto"; "Valor"]
                        :: map (fun l => [Cuenta l; money (Debe l)]) sorted)
                       ++ [["TOTAL"; money (Some (sum_debe (group Fecha d detalles)))]]
                       ++ match fila_retiro retiros d with
                          | f :: _ => [["EFECTIVO"; money (Some (Efectivo f))]]
                          | [] => []
                          end)] Hd) as [doc [Hdoc Hocc]].
    + unfold detalle_dia_tablas. rewrite Hrows. apply (occurs_here [_; _] [_]).
    + exists doc. eexists. split; [exact Hdoc|exact Hocc].
Qed.




(** Where the transfers of a day stand in each report. *)
Lemma transferencia_dia_occurs
    (now : date) (empresa mes responsable : string)
    (retiros : list retiro) (detalles : list line)
    (posibles_trans : list transfer) (trans_diario : list (date * Q))
    (total_trans : Q) (d : date) (seg : list block) :
  trans_diario <> [] ->
  In d (map (fun t => Fecha (t_line t)) posibles_trans) ->
  occurs seg (transferencia_dia d (group (fun t => Fecha (t_line t)) d posibles_trans)) ->
  exists doc,
    build_docx true now empresa mes responsable retiros detalles
               posibles_trans trans_diario total_trans = Saved doc /\
    occurs seg doc.
Proof.
  intros Hne Hd Hseg.
  unfold build_docx. cbn [negb]. rewrite (match_nonempty trans_diario) by exact Hne.
  eexists. split; [reflexivity|].
  do 6 apply occurs_app_r.
  apply occurs_flat_map with (x := d); [now apply group_keys_In|exact Hseg].
Qed.

Lemma transferencia_dia_tablas_occurs
    (now : date) (empresa mes responsable : string)
    (retiros : list retiro) (detalles : list line)
    (posibles_trans : list transfer) (trans_diario : list (date * Q))
    (total_trans : Q) (d : date) (seg : list block) :
  trans_diario <> [] ->
  In d (map (fun t => Fecha (t_line t)) posibles_trans) ->
  occurs seg (transferencia_dia_tablas d
                (group (fun t => Fecha (t_line t)) d posibles_trans)) ->
  exists doc,
    build_docx_tables true now empresa mes responsable retiros detalles
                      posibles_trans trans_diario total_trans = Saved doc /\
    occurs seg doc.
Proof.
  intros Hne Hd Hseg.
  unfold build_docx_tables. cbn [negb].
  rewrite (match_nonempty trans_diario) by exact Hne.
  eexists. split; [reflexivity|].
  do 6 apply occurs_app_r.
  apply occurs_flat_map with (x := d); [now apply group_keys_In|exact Hseg].
Qed.

End ReportFacts.

(** ** The transfers of a day in the reports *)

Section ReportTransfers.
Context {sorter : SortValues}.
Variable all_df : list line.
Variable petty : string.
Variable m : Q.
Variable kws : list string.

Let s := compute_sections all_df petty m kws.
Let key := fun t : transfer => Fecha (t_line t).

Lemma trans_diario_entry (d : date) (v : Q) :
  In (d, v) (trans_diario s) ->
  trans_diario s <> [] /\ In d (map key (posibles_trans s)) /\
  group key d (posibles_trans s) <> [] /\
  v = sum_Q (map (fun t => fillna0 (if haber_mode all_df then Haber (t_line t)
                                    else Debe (t_line t)))
                 (group key d (posibles_trans s))).
Proof.
  intros Hin. split; [intros E; rewrite E in Hin; destruct Hin|].
  unfold s in *. rewrite trans_diario_eq in Hin.
  apply groupby_sum_In in Hin. destruct Hin as [[t [Ht Hk]] ->].
  split; [|split].
  - subst d. now apply (in_map key).
  - intros E.
    assert (Hin : In t (group key d (posibles_trans (compute_sections all_df petty m kws)))).
    { apply filter_In. split; [exact Ht|]. now apply date_eqb_eq. }
    rewrite E in Hin. destruct Hin.
  - unfold group_total. now destruct (haber_mode all_df).
Qed.

Lemma keyword_candidate_has_debit (t : transfer) :
  haber_mode all_df = false -> In t (posibles_trans s) ->
  notna (Debe (t_line t)) = true.
Proof.
  intros Hm Ht. unfold s in Ht. rewrite posibles_trans_eq, Hm in Ht.
  apply in_map_iff in Ht. destruct Ht as [l [<- Hl]]. simpl.
  apply filter_In in Hl. destruct Hl as [_ Hq].
  apply andb_true_iff in Hq. destruct Hq as [Hge _].
  apply ge_spec in Hge. destruct Hge as [v [-> _]]. reflexivity.
Qed.

Lemma credit_candidate_positive (t : transfer) :
  haber_mode all_df = true -> In t (posibles_trans s) ->
  (0 < fillna0 (Haber (t_line t)))%Q.
Proof.
  intros Hm Ht. unfold s in Ht. rewrite posibles_trans_eq, Hm in Ht.
  apply in_map_iff in Ht. destruct Ht as [l [<- Hl]]. simpl.
  apply filter_In in Hl. destruct Hl as [_ Hq].
  apply gt_spec in Hq. destruct Hq as [v [-> Hv]]. exact Hv.
Qed.

(** X22. In the first report the total printed under the transfers of a day is
    the sum of the debits of the candidates of that day. Under the keyword
    rule that is the amount of the day in the transfers table. Under the
    credit rule it is not: when no candidate of the day has a debit the
    report prints a total of $0 under credits that add up to more than 0. *)
Theorem docx_transfer_day_total_adds_debits
    (now : date) (empresa mes responsable : string) (d : date) (v : Q) :
  In (d, v) (trans_diario s) ->
  exists doc t T,
    build_docx true now empresa mes responsable (retiros s) (detalles s)
               (posibles_trans s) (trans_diario s) (total_trans s) = Saved doc /\
    occurs [Paragraph (fmt_date d) true; Table t;
            Paragraph ("TOTAL: " ++ money (Some T)) false] doc /\
    T = sum_Q (map (fun t => fillna0 (Debe (t_line t)))
                   (filter (fun t => date_eqb (Fecha (t_line t)) d) (posibles_trans s))) /\
    (haber_mode all_df = false -> T = v) /\
    (haber_mode all_df = true ->
     (forall c, In c (posibles_trans s) -> Fecha (t_line c) = d ->
                Debe (t_line c) = None) ->
     money (Some T) = "$0" /\ (0 < v)%Q).
Proof.
  intros Hin.
  destruct (trans_diario_entry d v Hin) as [Hne [Hd [Hsub Hv]]].
  set (sub := group key d (posibles_trans s)) in *.
  assert (HT : sum_debe (map t_line sub)
               = sum_Q (map (fun t => fillna0 (Debe (t_line t))) sub)).
  { unfold sum_debe. now rewrite map_map. }
  destruct (transferencia_dia_occurs now empresa mes responsable
              (retiros s) (detalles s) (posibles_trans s) (trans_diario s)
              (total_trans s) d
              [Paragraph (fmt_date d) true;
               Table (mk_table None None (["Concepto"; "Valor"] :: posibles_rows sub));
               Paragraph ("TOTAL: " ++ money (Some (sum_debe (map t_line sub)))) false]
              Hne Hd) as [doc [Hdoc Hocc]].
  { unfold transferencia_dia. apply (occurs_here [_; _; _] [_]). }
  exists doc. eexists. exists (sum_debe (map t_line sub)).
  split; [exact Hdoc|]. split; [exact Hocc|]. split; [exact HT|]. split.
  - intros Hm. rewrite HT, Hv, Hm. reflexivity.
  - intros Hm Hnone.
    assert (Hz : sum_debe (map t_line sub) = 0%Q).
    { rewrite HT.
      rewrite (map_ext_in (fun t => fillna0 (Debe (t_line t))) (fun _ => 0%Q)).
      - apply sum_Q_zeros.
      - intros c Hc. apply filter_In in Hc. destruct Hc as [Hc Hk].
        apply date_eqb_eq in Hk. now rewrite (Hnone c Hc Hk). }
    split; [now rewrite Hz|].
    rewrite Hv, Hm. apply sum_Q_pos.
    + intros E. apply map_eq_nil in E. contradiction.
    + intros x Hx. apply in_map_iff in Hx. destruct Hx as [c [<- Hc]].
      apply filter_In in Hc. destruct Hc as [Hc _].
      now apply credit_candidate_positive.
Qed.

(** X23. In the second report the total row of the transfers of a day is the
    amount of the day in the transfers table, under the keyword rule and,
    under the credit rule, whenever no candidate of the day has a debit. *)
Theorem tablas_transfer_day_total
    (now : date) (empresa mes responsable : string) (d : date) (v : Q) :
  In (d, v) (trans_diario s) ->
  haber_mode all_df = false \/
  (forall c, In c (posibles_trans s) -> Fecha (t_line c) = d ->
             Debe (t_line c) = None) ->
  exists doc rows,
    build_docx_tables true now empresa mes responsable (retiros s) (detalles s)
                      (posibles_trans s) (trans_diario s) (total_trans s) = Saved doc /\
    occurs [Paragraph (fmt_date d) true;
            grid (rows ++ [["TOTAL"; money (Some v)]])] doc.
Proof.
  intros Hin Hcase.
  destruct (trans_diario_entry d v Hin) as [Hne [Hd [Hsub Hv]]].
  set (sub := group key d (posibles_trans s)) in *.
  assert (Htotal : (if existsb (fun t => notna (Debe (t_line t))) sub
                    then sum_debe (map t_line sub)
                    else sum_Q (map (fun t => fillna0 (Haber (t_line t))) sub)) = v).
  { destruct (haber_mode all_df) eqn:Hm.
    - destruct Hcase as [Hk|Hnone]; [discriminate|].
      replace (existsb (fun t => notna (Debe (t_line t))) sub) with false; [now rewrite Hv|].
      symmetry. apply not_true_is_false. intros E.
      apply existsb_exists in E. destruct E as [c [Hc Hn]].
      apply filter_In in Hc. destruct Hc as [Hc Hk].
      apply date_eqb_eq in Hk. rewrite (Hnone c Hc Hk) in Hn. discriminate.
    - replace (existsb (fun t => notna (Debe (t_line t))) sub) with true.
      + unfold sum_debe. now rewrite map_map, Hv.
      + symmetry. destruct sub as [|c sub'] eqn:Es; [contradiction|].
        assert (Hc : In c (posibles_trans s)).
        { assert (Hin' : In c (group key d (posibles_trans s)))
            by (fold sub; rewrite Es; now left).
          apply filter_In in Hin'. tauto. }
        simpl. now rewrite (keyword_candidate_has_debit c Hm Hc). }
  destruct (transferencia_dia_tablas_occurs now empresa mes responsable
              (retiros s) (detalles s) (posibles_trans s) (trans_diario s)
              (total_trans s) d
              [Paragraph (fmt_date d) true;
               grid ((["Concepto"; "Valor"] :: posibles_rows sub)
                     ++ [["TOTAL"; money (Some v)]])]
              Hne Hd) as [doc [Hdoc Hocc]].
  { unfold transferencia_dia_tablas. unfold sub, key in Htotal.
    rewrite Htotal. apply (occurs_here [_; _] [_]). }
  exists doc. eexists. split; [exact Hdoc|exact Hocc].
Qed.

End ReportTransfers.

(** ** The order of the days in the tables *)

Lemma by_fecha_trans {A : Type} (key : A -> date) (x y z : A) :
  by_fecha key x y = true -> by_fecha key y z = true -> by_fecha key x z = true.
Proof.
  unfold by_fecha.
  generalize (key x) (key y) (key z). intros a b c H1 H2.
  destruct (date_compare a b) eqn:C1; try discriminate;
    destruct (date_compare b c) eqn:C2; try discriminate;
    destruct (date_compare a c) eqn:C3; try reflexivity; exfalso.
  - apply date_compare_eq in C1, C2. subst.
    apply date_compare_gt in C3. exact (date_lt_irrefl _ C3).
  - apply date_compare_eq in C1. subst. congruence.
  - apply date_compare_eq in C2. subst. congruence.
  - apply date_compare_gt in C3.
    exact (date_lt_irrefl _ (date_lt_trans _ _ _ C1 (date_lt_trans _ _ _ C2 C3))).
Qed.

Lemma sorted_perm_unique {A : Type} (key : A -> date) (l l' : list A) :
  StronglySorted date_lt (map key l) -> Permutation l l' ->
  Sorted (fun x y => by_fecha key x y = true) l' -> l' = l.
Proof.
  revert l'. induction l as [|a l IH]; intros l' Hs HP Hs'.
  - apply Permutation_nil in HP. now subst.
  - destruct l' as [|b l'].
    + apply Permutation_sym, Permutation_nil in HP. discriminate.
    + simpl in Hs. inversion Hs as [|? ? Hs0 Ha]; subst.
      rewrite Forall_forall in Ha.
      assert (b = a) as ->.
      { assert (Hb : In b (a :: l)).
        { apply Permutation_in with (b :: l'); [now symmetry|now left]. }
        destruct Hb as [E|Hb]; [now subst|]. exfalso.
        assert (Hlt : date_lt (key a) (key b)) by (apply Ha; now apply in_map).
        assert (Ha' : In a (b :: l')).
        { apply Permutation_in with (a :: l); [exact HP|now left]. }
        destruct Ha' as [E|Ha']; [subst; exact (date_lt_irrefl _ Hlt)|].
        apply Sorted_StronglySorted in Hs'.
        - inversion Hs' as [|? ? _ Hb']; subst. rewrite Forall_forall in Hb'.
          specialize (Hb' a Ha'). unfold by_fecha in Hb'.
          destruct (date_compare (key b) (key a)) eqn:C; try discriminate.
          + apply date_compare_eq in C. rewrite C in Hlt.
            exact (date_lt_irrefl _ Hlt).
          + exact (date_lt_irrefl _ (date_lt_trans _ _ _ Hlt C)).
        - intros x y z. apply by_fecha_trans. }
      f_equal. apply IH; [exact Hs0| |now inversion Hs'].
      now apply Permutation_cons_inv with a.
Qed.

Section ReportOrder.
Context {sorter : SortValues}.

(** X24. In the tables of withdrawals and of transfers of both reports the days
    come in increasing order of date, one row a day, the rows of the views
    themselves: sorting them again, whatever it does with equal keys,
    changes nothing. *)
Theorem tables_keep_the_order_of_the_views
    (all_df : list line) (petty : string) (m : Q) (kws : list string)
    (remark : string) :
  let s := compute_sections all_df petty m kws in
  retiros_rows (retiros s)
  = map (fun r => [fmt_date (r_Fecha r); money (Some (Monto r)); Concepto r])
        (retiros s) /\
  trans_rows remark (trans_diario s)
  = map (fun r => [fmt_date (fst r); money (Some (snd r)); remark]) (trans_diario s) /\
  StronglySorted date_lt (map r_Fecha (retiros s)) /\
  StronglySorted date_lt (map fst (trans_diario s)).
Proof.
  intros s.
  assert (H1 : StronglySorted date_lt (map r_Fecha (retiros s))).
  { unfold s. rewrite retiros_dates. apply group_keys_sorted. }
  assert (H2 : StronglySorted date_lt (map fst (trans_diario s))).
  { unfold s. rewrite trans_diario_eq, groupby_sum_keys. apply group_keys_sorted. }
  split; [|split; [|split]]; auto.
  - unfold retiros_rows. f_equal.
    apply (sorted_perm_unique r_Fecha); [exact H1|apply sort_values_perm|].
    apply sort_values_sorted. apply by_fecha_total.
  - unfold trans_rows. f_equal.
    apply (sorted_perm_unique (@fst date Q)); [exact H2|apply sort_values_perm|].
    apply sort_values_sorted. apply by_fecha_total.
Qed.

End ReportOrder.

(** ** Sheets with other names *)


(** * Instances of the further properties *)

Import Scenario2.


Lemma ledger_dates_are_calendar_dates_witness :
  load_ledger [sheet_aug5] = Ok ledger_A /\ In papeleria ledger_A /\
  1 <= month (Fecha papeleria) <= 12.
Proof.
  assert (H1 : load_ledger [sheet_aug5] = Ok ledger_A) by reflexivity.
  assert (H2 : In papeleria ledger_A) by (simpl; tauto).
  split; [exact H1|]. split; [exact H2|].
  exact (proj1 (proj2 (proj2 (ledger_dates_are_calendar_dates
                                [sheet_aug5] ledger_A papeleria H1 H2)))).
Defined.



Lemma no_credit_column_means_keyword_mode_witness :
  load_ledger [sheet_two_columns]
  = Ok [mk_line (mk_date 2025 8 5) "CAJA MENOR" (Some 500000%Q) None; banco_sin_haber] /\
  haber_mode [mk_line (mk_date 2025 8 5) "CAJA MENOR" (Some 500000%Q) None;
              banco_sin_haber] = false.
Proof.
  assert (H1 : load_ledger [sheet_two_columns]
               = Ok [mk_line (mk_date 2025 8 5) "CAJA MENOR" (Some 500000%Q) None;
                     banco_sin_haber]) by reflexivity.
  split; [exact H1|].
  refine (proj1 (proj2 (no_credit_column_means_keyword_mode
                          [sheet_two_columns] _ "CAJA MENOR" 300000%Q ["BANCO"] H1 _))).
  intros sh df [<-|[]] E. inversion E; subst. reflexivity.
Defined.

Lemma detect_columns_unambiguous_headers_witness :
  detect_columns headers_usual = spec_detect_columns headers_usual.
Proof.
  apply detect_columns_unambiguous_headers.
  - intros tok [<-|[<-|[<-|[]]]]; vm_compute; lia.
  - intros c [<-|[<-|[<-|[<-|[]]]]]; vm_compute; auto.
Defined.

Lemma candidates_grow_with_settings_witness :
  (100000 <= 300000)%Q /\ incl ["BANCO"] ["BANCO"; "PAPEL"] /\
  In (mk_transfer banco "DEBE(MAYOR)")
     (posibles_trans (compute_sections ledger_B "CAJA MENOR" 100000%Q ["BANCO"; "PAPEL"])).
Proof.
  assert (H1 : (100000 <= 300000)%Q) by (vm_compute; discriminate).
  assert (H2 : incl ["BANCO"] ["BANCO"; "PAPEL"]) by (intros x [<-|[]]; simpl; tauto).
  split; [exact H1|]. split; [exact H2|].
  apply (candidates_grow_with_settings ledger_B "CAJA MENOR" 100000%Q 300000%Q
           ["BANCO"] ["BANCO"; "PAPEL"] _ H1 H2).
  vm_compute. tauto.
Defined.

Lemma longer_keyword_is_redundant_witness :
  In "PROVEEDOR" ["PROVEEDOR"; "BANCO"] /\
  Py.contains "PROVEEDOR" "PROVEEDORES" = true /\
  compute_sections ledger_B "CAJA MENOR" 300000%Q ["PROVEEDORES"; "PROVEEDOR"; "BANCO"]
  = compute_sections ledger_B "CAJA MENOR" 300000%Q ["PROVEEDOR"; "BANCO"].
Proof.
  assert (H1 : In "PROVEEDOR" ["PROVEEDOR"; "BANCO"]) by (simpl; tauto).
  assert (H2 : Py.contains "PROVEEDOR" "PROVEEDORES" = true) by reflexivity.
  split; [exact H1|]. split; [exact H2|].
  exact (longer_keyword_is_redundant ledger_B "CAJA MENOR" 300000%Q
           ["PROVEEDOR"; "BANCO"] "PROVEEDOR" "PROVEEDORES" H1 H2).
Defined.

Lemma fmt_date_parses_back_witness :
  valid_ymd 2025 8 5 = true /\ 1000 <= 2025 /\
  parse_sheet_date (fmt_date aug5) = Ok (Some aug5).
Proof.
  assert (H1 : valid_ymd (year aug5) (month aug5) (day aug5) = true) by reflexivity.
  assert (H2 : 1000 <= year aug5) by (simpl; lia).
  split; [exact H1|]. split; [exact H2|].
  exact (proj2 (fmt_date_parses_back aug5 H1 H2)).
Defined.

Lemma itemized_lines_listed_by_day_witness :
  In aug5 (map Fecha [papeleria; banco]) /\
  exists sorted,
    Permutation (filter (fun l => date_eqb (Fecha l) aug5) [papeleria; banco]) sorted /\
    Sorted (fun a b => String.leb (Cuenta a) (Cuenta b) = true) sorted.
Proof.
  assert (H : In aug5 (map Fecha [papeleria; banco])) by (simpl; tauto).
  split; [exact H|].
  destruct (itemized_lines_listed_by_day aug6 "Empresa" "Agosto" "" [] [papeleria; banco]
              [] [] 0%Q aug5 H) as [sorted [HP [HS _]]].
  exists sorted. split; [exact HP|exact HS].
Defined.


Lemma docx_transfer_day_total_adds_debits_witness :
  In (aug5, 200000%Q)
     (trans_diario (compute_sections ledger_C "CAJA MENOR" 300000%Q ["BANCO"])) /\
  exists doc t T,
    build_docx true aug6 "Empresa" "Agosto" ""
      (retiros (compute_sections ledger_C "CAJA MENOR" 300000%Q ["BANCO"]))
      (detalles (compute_sections ledger_C "CAJA MENOR" 300000%Q ["BANCO"]))
      (posibles_trans (compute_sections ledger_C "CAJA MENOR" 300000%Q ["BANCO"]))
      (trans_diario (compute_sections ledger_C "CAJA MENOR" 300000%Q ["BANCO"]))
      (total_trans (compute_sections ledger_C "CAJA MENOR" 300000%Q ["BANCO"]))
    = Saved doc /\
    occurs [Paragraph (fmt_date aug5) true; Table t;
            Paragraph ("TOTAL: " ++ money (Some T)) false] doc /\
    money (Some T) = "$0".
Proof.
  assert (H : In (aug5, 200000%Q)
                (trans_diario (compute_sections ledger_C "CAJA MENOR" 300000%Q ["BANCO"])))
    by (vm_compute; tauto).
  split; [exact H|].
  destruct (docx_transfer_day_total_adds_debits ledger_C "CAJA MENOR" 300000%Q ["BANCO"]
              aug6 "Empresa" "Agosto" "" aug5 200000%Q H)
    as [doc [t [T [Hdoc [Hocc [_ [_ Hcredit]]]]]]].
  exists doc, t, T. split; [exact Hdoc|]. split; [exact Hocc|].
  apply Hcredit; [reflexivity|].
  intros c Hc _. vm_compute in Hc. destruct Hc as [<-|[]]. reflexivity.
Defined.

Lemma tablas_transfer_day_total_witness :
  In (aug5, 200000%Q)
     (trans_diario (compute_sections ledger_C "CAJA MENOR" 300000%Q ["BANCO"])) /\
  exists doc rows,
    build_docx_tables true aug6 "Empresa" "Agosto" ""
      (retiros (compute_sections ledger_C "CAJA MENOR" 300000%Q ["BANCO"]))
      (detalles (compute_sections ledger_C "CAJA MENOR" 300000%Q ["BANCO"]))
      (posibles_trans (compute_sections ledger_C "CAJA MENOR" 300000%Q ["BANCO"]))
      (trans_diario (compute_sections ledger_C "CAJA MENOR" 300000%Q ["BANCO"]))
      (total_trans (compute_sections ledger_C "CAJA MENOR" 300000%Q ["BANCO"]))
    = Saved doc /\
    occurs [Paragraph (fmt_date aug5) true;
            grid (rows ++ [["TOTAL"; money (Some 200000%Q)]])] doc.
Proof.
  assert (H : In (aug5, 200000%Q)
                (trans_diario (compute_sections ledger_C "CAJA MENOR" 300000%Q ["BANCO"])))
    by (vm_compute; tauto).
  split; [exact H|].
  apply (tablas_transfer_day_total ledger_C "CAJA MENOR" 300000%Q ["BANCO"]
           aug6 "Empresa" "Agosto" "" aug5 200000%Q H).
  right. intros c Hc _. vm_compute in Hc. destruct Hc as [<-|[]]. reflexivity.
Defined.

(** The example of the specification for amounts. *)
Example money_example : money (Some 1234567%Q) = "$1.234.567".
Proof. reflexivity. Qed.

